(** * Windows Dev Environment Setup GUI: model of [dev-setup-gui.py]

    A shallow embedding of the [DevSetupGUI] controller: the object's
    fields, the widgets it reads and writes, and the methods that load the
    configuration, probe the package managers, launch the provisioning
    script and maintain the installation log.

    Python exceptions leave every mutation made before the [raise] in
    place, so a method is a function from the object to an outcome
    (a value or a raised exception) together with the object as it is
    left.  Everything the methods obtain from outside the object (the wall
    clock, the configuration file, the child processes) is collected in an
    environment record. *)

From Stdlib Require Import String Ascii List ZArith Arith Bool Lia DecimalString DecimalPos.
Import ListNotations.

Local Open Scope list_scope.
Local Open Scope string_scope.

(** ** Python runtime

    A [str] is represented by its UTF-8 encoding: a [string] here is the
    sequence of the bytes of the text. *)

Module Py.

(** An instance of [Exception]: its class name and [str(e)].  The signals
    that derive from [BaseException] only ([KeyboardInterrupt],
    [SystemExit]) are delivered to the main thread or raised by explicit
    calls that this program does not make; they are outside the model. *)
Record exn : Type := mk_exn { exn_type : string; exn_msg : string }.

Inductive outcome (A : Type) : Type :=
| Ret (a : A)
| Raise (e : exn).
Arguments Ret {A} a.
Arguments Raise {A} e.

Definition nl : string := String "010"%char "".

(** [str(n)] for an [int]. *)
Definition str_int (n : Z) : string := NilZero.string_of_int (Z.to_int n).

(** [str.isspace] on a character: the white space of Python is U+0009 to
    U+000D, U+001C to U+0020, U+0085, U+00A0, U+1680, U+2000 to U+200A,
    U+2028, U+2029, U+202F, U+205F and U+3000.  [isspace] decides the ones
    of one byte, [isspace2] those of two bytes and [isspace3] those of
    three. *)
Definition isspace (c : ascii) : bool :=
  let n := nat_of_ascii c in
  ((9 <=? n)%nat && (n <=? 13)%nat) || ((28 <=? n)%nat && (n <=? 32)%nat).

Definition isspace2 (c1 c2 : ascii) : bool :=
  let n1 := nat_of_ascii c1 in
  let n2 := nat_of_ascii c2 in
  (n1 =? 194)%nat && ((n2 =? 133)%nat || (n2 =? 160)%nat).

Definition isspace3 (c1 c2 c3 : ascii) : bool :=
  let n1 := nat_of_ascii c1 in
  let n2 := nat_of_ascii c2 in
  let n3 := nat_of_ascii c3 in
  ((n1 =? 225)%nat && (n2 =? 154)%nat && (n3 =? 128)%nat) ||
  ((n1 =? 226)%nat && (n2 =? 128)%nat &&
   (((128 <=? n3)%nat && (n3 <=? 138)%nat) || (n3 =? 168)%nat || (n3 =? 169)%nat
    || (n3 =? 175)%nat)) ||
  ((n1 =? 226)%nat && (n2 =? 129)%nat && (n3 =? 159)%nat) ||
  ((n1 =? 227)%nat && (n2 =? 128)%nat && (n3 =? 128)%nat).

(** [s.lstrip()] *)
Fixpoint lstrip (s : string) : string :=
  match s with
  | "" => ""
  | String c1 r1 =>
      if isspace c1 then lstrip r1
      else
        match r1 with
        | "" => s
        | String c2 r2 =>
            if isspace2 c1 c2 then lstrip r2
            else
              match r2 with
              | "" => s
              | String c3 r3 => if isspace3 c1 c2 c3 then lstrip r3 else s
              end
        end
  end.

(** [s.rstrip()]: the text up to the point from which only white space
    follows. *)
Fixpoint rstrip (s : string) : string :=
  match s with
  | "" => ""
  | String c r => if lstrip s =? "" then "" else String c (rstrip r)
  end.

(** [s.strip()] *)
Definition strip (s : string) : string := rstrip (lstrip s).

(** [sep.join(l)] *)
Fixpoint join (sep : string) (l : list string) : string :=
  match l with
  | [] => ""
  | [x] => x
  | x :: r => x ++ sep ++ join sep r
  end.

(** [needle in haystack] for two [str]. *)
Fixpoint contains (needle haystack : string) : bool :=
  String.prefix needle haystack ||
  match haystack with
  | "" => false
  | String _ r => contains needle r
  end.

(** The fields of a [datetime] that the program formats. *)
Record datetime : Type := mk_datetime { hour : nat; minute : nat; second : nat }.

(** [datetime.now()] for a clock that counts seconds. *)
Definition datetime_of_seconds (t : nat) : datetime :=
  {| hour := (t / 3600) mod 24; minute := (t / 60) mod 60; second := t mod 60 |}.

Definition digit (d : nat) : ascii := ascii_of_nat (48 + d).

(** ["%02d"] for a number below 100. *)
Definition two_digits (n : nat) : string :=
  String (digit (n / 10)) (String (digit (n mod 10)) "").

(** [d.strftime("%H:%M:%S")] *)
Definition strftime_HMS (d : datetime) : string :=
  two_digits (hour d) ++ ":" ++ two_digits (minute d) ++ ":" ++ two_digits (second d).

(** A [dict] with [str] keys: the items in insertion order. *)
Definition dict (V : Type) : Type := list (string * V).

Fixpoint dict_mem {V} (k : string) (d : dict V) : bool :=
  match d with
  | [] => false
  | (k', _) :: r => (k =? k') || dict_mem k r
  end.

Fixpoint dict_get {V} (k : string) (d : dict V) : option V :=
  match d with
  | [] => None
  | (k', v) :: r => if k =? k' then Some v else dict_get k r
  end.

(** [d[k] = v]: an existing key keeps its place. *)
Fixpoint dict_set {V} (k : string) (v : V) (d : dict V) : dict V :=
  match d with
  | [] => [(k, v)]
  | (k', v') :: r => if k =? k' then (k, v) :: r else (k', v') :: dict_set k v r
  end.

End Py.
Import Py.

(** ** JSON values as [json.load] returns them.  Numbers are the integers;
    the configuration schema holds booleans and lists of strings. *)

#[local] Set Warnings "-register-all".

Inductive json : Type :=
| JNull
| JBool (b : bool)
| JNum (n : Z)
| JStr (s : string)
| JArr (l : list json)
| JObj (items : dict json).

(** [bool(v)] *)
Definition truthy (v : json) : bool :=
  match v with
  | JNull => false
  | JBool b => b
  | JNum n => negb (n =? 0)%Z
  | JStr s => negb (s =? "")
  | JArr l => match l with [] => false | _ => true end
  | JObj d => match d with [] => false | _ => true end
  end.

Definition type_name (v : json) : string :=
  match v with
  | JNull => "NoneType"
  | JBool _ => "bool"
  | JNum _ => "int"
  | JStr _ => "str"
  | JArr _ => "list"
  | JObj _ => "dict"
  end.

Definition is_str (s : string) (v : json) : bool :=
  match v with JStr s' => s =? s' | _ => false end.

(** ** The environment of the program *)

(** What [load_config] finds at [config.json]. *)
Inductive config_file : Type :=
| NoFile                       (* [config_path.exists()] is false *)
| LoadRaises (e : exn)         (* [open] or [json.load] raises *)
| Loaded (v : json).           (* [json.load] returns [v] *)

(** [subprocess.CompletedProcess] *)
Record CompletedProcess : Type :=
  mk_completed { returncode : Z; stdout : string }.

(** How a child started with [subprocess.Popen] goes on once its output
    lines have been read: reading raises, the stream closes and [wait]
    raises, or the stream closes and the child exits with a code. *)
Inductive child_end : Type :=
| ReadRaises (e : exn)
| WaitRaises (e : exn)
| Exits (code : Z).

Inductive child : Type :=
| SpawnRaises (e : exn)
| Spawned (lines : list string) (fin : child_end).

Record Env : Type := mk_env {
  clock : nat -> nat;                      (* the n-th reading of the wall clock, in seconds *)
  config_json : config_file;
  subprocess_run : list string -> outcome CompletedProcess;
  subprocess_Popen : list string -> child
}.

(** ** The object *)

(** The widgets the methods use, all created by [create_widgets]; each is
    modelled by the part of its state the program reads or writes. *)
Record Widgets : Type := mk_widgets {
  status_label : string;        (* text of the label *)
  progress_packed : bool;       (* the progress bar is shown *)
  progress_running : bool;
  pm_var : string;
  install_btn : string;         (* the button's [state] option *)
  stack_listbox : list string;
  debug_var : bool;
  logging_var : bool;
  log_text : string;            (* contents of the text widget *)
  status_text : string;
  pm_status : string
}.

Record DevSetupGUI : Type := mk_gui {
  is_installing : bool;
  installation_log : list string;
  config : json;
  package_managers : dict string;
  available_stacks : json;
  widgets : option Widgets;     (* [None] until [create_widgets] has run *)
  (* the object's footprint outside itself *)
  now_calls : nat;                       (* readings of the clock so far *)
  threads_started : nat;                 (* worker threads started *)
  popen_calls : list (list string)       (* command lines given to [Popen] *)
}.

Definition set_is_installing (b : bool) (s : DevSetupGUI) : DevSetupGUI :=
  mk_gui b (installation_log s) (config s) (package_managers s)
         (available_stacks s) (widgets s) (now_calls s) (threads_started s)
         (popen_calls s).

Definition set_installation_log (l : list string) (s : DevSetupGUI) : DevSetupGUI :=
  mk_gui (is_installing s) l (config s) (package_managers s)
         (available_stacks s) (widgets s) (now_calls s) (threads_started s)
         (popen_calls s).

Definition set_config (c : json) (s : DevSetupGUI) : DevSetupGUI :=
  mk_gui (is_installing s) (installation_log s) c (package_managers s)
         (available_stacks s) (widgets s) (now_calls s) (threads_started s)
         (popen_calls s).

Definition set_package_managers (d : dict string) (s : DevSetupGUI) : DevSetupGUI :=
  mk_gui (is_installing s) (installation_log s) (config s) d
         (available_stacks s) (widgets s) (now_calls s) (threads_started s)
         (popen_calls s).

Definition set_available_stacks (v : json) (s : DevSetupGUI) : DevSetupGUI :=
  mk_gui (is_installing s) (installation_log s) (config s) (package_managers s)
         v (widgets s) (now_calls s) (threads_started s) (popen_calls s).

Definition set_widgets (w : option Widgets) (s : DevSetupGUI) : DevSetupGUI :=
  mk_gui (is_installing s) (installation_log s) (config s) (package_managers s)
         (available_stacks s) w (now_calls s) (threads_started s)
         (popen_calls s).

Definition set_now_calls (n : nat) (s : DevSetupGUI) : DevSetupGUI :=
  mk_gui (is_installing s) (installation_log s) (config s) (package_managers s)
         (available_stacks s) (widgets s) n (threads_started s) (popen_calls s).

Definition set_threads_started (n : nat) (s : DevSetupGUI) : DevSetupGUI :=
  mk_gui (is_installing s) (installation_log s) (config s) (package_managers s)
         (available_stacks s) (widgets s) (now_calls s) n (popen_calls s).

Definition set_popen_calls (l : list (list string)) (s : DevSetupGUI) : DevSetupGUI :=
  mk_gui (is_installing s) (installation_log s) (config s) (package_managers s)
         (available_stacks s) (widgets s) (now_calls s) (threads_started s) l.

Definition set_status_label (v : string) (w : Widgets) : Widgets :=
  mk_widgets v (progress_packed w) (progress_running w) (pm_var w)
             (install_btn w) (stack_listbox w) (debug_var w) (logging_var w)
             (log_text w) (status_text w) (pm_status w).

Definition set_progress_packed (v : bool) (w : Widgets) : Widgets :=
  mk_widgets (status_label w) v (progress_running w) (pm_var w)
             (install_btn w) (stack_listbox w) (debug_var w) (logging_var w)
             (log_text w) (status_text w) (pm_status w).

Definition set_progress_running (v : bool) (w : Widgets) : Widgets :=
  mk_widgets (status_label w) (progress_packed w) v (pm_var w)
             (install_btn w) (stack_listbox w) (debug_var w) (logging_var w)
             (log_text w) (status_text w) (pm_status w).

Definition set_install_btn (v : string) (w : Widgets) : Widgets :=
  mk_widgets (status_label w) (progress_packed w) (progress_running w) (pm_var w)
             v (stack_listbox w) (debug_var w) (logging_var w)
             (log_text w) (status_text w) (pm_status w).

Definition set_stack_listbox (v : list string) (w : Widgets) : Widgets :=
  mk_widgets (status_label w) (progress_packed w) (progress_running w) (pm_var w)
             (install_btn w) v (debug_var w) (logging_var w)
             (log_text w) (status_text w) (pm_status w).

Definition set_log_text (v : string) (w : Widgets) : Widgets :=
  mk_widgets (status_label w) (progress_packed w) (progress_running w) (pm_var w)
             (install_btn w) (stack_listbox w) (debug_var w) (logging_var w)
             v (status_text w) (pm_status w).

Definition set_status_text (v : string) (w : Widgets) : Widgets :=
  mk_widgets (status_label w) (progress_packed w) (progress_running w) (pm_var w)
             (install_btn w) (stack_listbox w) (debug_var w) (logging_var w)
             (log_text w) v (pm_status w).

Definition set_pm_status (v : string) (w : Widgets) : Widgets :=
  mk_widgets (status_label w) (progress_packed w) (progress_running w) (pm_var w)
             (install_btn w) (stack_listbox w) (debug_var w) (logging_var w)
             (log_text w) (status_text w) v.

(** ** Methods as state transformers that may raise *)

Definition M (A : Type) : Type := DevSetupGUI -> outcome A * DevSetupGUI.

Definition ret {A} (a : A) : M A := fun s => (Ret a, s).

Definition raise {A} (e : exn) : M A := fun s => (Raise e, s).

Definition bind {A B} (m : M A) (k : A -> M B) : M B :=
  fun s =>
    match m s with
    | (Ret a, s') => k a s'
    | (Raise e, s') => (Raise e, s')
    end.

Declare Scope py_scope.
Delimit Scope py_scope with py.
Notation "x <- m ;; k" := (bind m (fun x => k))
  (at level 61, m at next level, right associativity) : py_scope.
Notation "m ;; k" := (bind m (fun _ => k))
  (at level 61, right associativity) : py_scope.
Local Open Scope py_scope.

Definition gets {A} (f : DevSetupGUI -> A) : M A := fun s => (Ret (f s), s).

Definition modify (f : DevSetupGUI -> DevSetupGUI) : M unit :=
  fun s => (Ret tt, f s).

(** [try: body  except Exception as e: handler e] *)
Definition try_except {A} (body : M A) (handler : exn -> M A) : M A :=
  fun s =>
    match body s with
    | (Ret a, s') => (Ret a, s')
    | (Raise e, s') => handler e s'
    end.

(** [try: body  finally: fin]: [fin] always runs; an exception it raises
    replaces the outcome of [body], otherwise that outcome stands. *)
Definition try_finally {A} (body : M A) (fin : M unit) : M A :=
  fun s =>
    match body s with
    | (r, s') =>
        match fin s' with
        | (Ret _, s'') => (r, s'')
        | (Raise e, s'') => (Raise e, s'')
        end
    end.

(** [for x in l: body x] *)
Fixpoint for_each {A} (l : list A) (body : A -> M unit) : M unit :=
  match l with
  | [] => ret tt
  | x :: r => body x ;; for_each r body
  end.

Definition lift {A} (o : outcome A) : M A := fun s => (o, s).

Definition AttributeError (obj attr : string) : exn :=
  mk_exn "AttributeError"
         ("'" ++ obj ++ "' object has no attribute '" ++ attr ++ "'").

Definition TypeError (msg : string) : exn := mk_exn "TypeError" msg.

Definition KeyError (key : string) : exn := mk_exn "KeyError" ("'" ++ key ++ "'").

(** [self.<attr>] for a widget attribute, read through [proj]. *)
Definition widget_get {A} (attr : string) (proj : Widgets -> A) : M A :=
  fun s =>
    match widgets s with
    | Some w => (Ret (proj w), s)
    | None => (Raise (AttributeError "DevSetupGUI" attr), s)
    end.

(** A call on the widget [self.<attr>] that changes it by [f]. *)
Definition widget_do (attr : string) (f : Widgets -> Widgets) : M unit :=
  fun s =>
    match widgets s with
    | Some w => (Ret tt, set_widgets (Some (f w)) s)
    | None => (Raise (AttributeError "DevSetupGUI" attr), s)
    end.

(** ** Operations on the loaded configuration *)

(** [k in v] *)
Definition py_in (k : string) (v : json) : outcome bool :=
  match v with
  | JObj d => Ret (dict_mem k d)
  | JArr l => Ret (existsb (is_str k) l)
  | JStr s => Ret (contains k s)
  | _ => Raise (TypeError ("argument of type '" ++ type_name v ++ "' is not iterable"))
  end.

(** [v[k]] *)
Definition py_getitem (v : json) (k : string) : outcome json :=
  match v with
  | JObj d => match dict_get k d with
              | Some x => Ret x
              | None => Raise (KeyError k)
              end
  | JArr _ => Raise (TypeError "list indices must be integers or slices, not str")
  | JStr _ => Raise (TypeError "string indices must be integers, not 'str'")
  | _ => Raise (TypeError ("'" ++ type_name v ++ "' object is not subscriptable"))
  end.

(** [v.items()] *)
Definition py_items (v : json) : outcome (dict json) :=
  match v with
  | JObj d => Ret d
  | _ => Raise (AttributeError (type_name v) "items")
  end.

(** [v.get(k, default)] *)
Definition py_get (v : json) (k : string) (default : json) : outcome json :=
  match v with
  | JObj d => Ret (match dict_get k d with Some x => x | None => default end)
  | _ => Raise (AttributeError (type_name v) "get")
  end.

(** ** The methods of [DevSetupGUI] *)

Section Methods.

Variable env : Env.

(** [datetime.now()] *)
Definition datetime_now : M datetime :=
  fun s => (Ret (datetime_of_seconds (clock env (now_calls s))),
            set_now_calls (S (now_calls s)) s).

(** [subprocess.run(argv, capture_output=True, text=True, timeout=5)] *)
Definition run (argv : list string) : M CompletedProcess :=
  lift (subprocess_run env argv).

(** [subprocess.Popen(cmd, ...)]: the process object is the behaviour of
    the child it stands for. *)
Definition Popen (cmd : list string) : M (list string * child_end) :=
  fun s =>
    let s' := set_popen_calls (popen_calls s ++ [cmd]) s in
    match subprocess_Popen env cmd with
    | SpawnRaises e => (Raise e, s')
    | Spawned lines fin => (Ret (lines, fin), s')
    end.

(** [for line in process.stdout: body line] *)
Definition for_stdout (process : list string * child_end)
           (body : string -> M unit) : M unit :=
  for_each (fst process) body ;;
  match snd process with
  | ReadRaises e => raise e
  | _ => ret tt
  end.

(** [process.wait()], giving [process.returncode] *)
Definition wait (process : list string * child_end) : M Z :=
  match snd process with
  | Exits code => ret code
  | WaitRaises e => raise e
  | ReadRaises e => raise e
  end.

(** [self.root.update_idletasks()]: redraws, changes nothing modelled. *)
Definition update_idletasks : M unit := ret tt.

Definition log_message (message : string) : M unit :=
  now <- datetime_now ;;
  let timestamp := strftime_HMS now in
  let log_entry := "[" ++ timestamp ++ "] " ++ message ++ nl in
  modify (fun s => set_installation_log (installation_log s ++ [log_entry]) s) ;;
  widget_do "log_text" (fun w => set_log_text (log_text w ++ log_entry) w) ;;
  widget_do "log_text" (fun w => w) ;;
  update_idletasks.

Definition update_status (status : string) : M unit :=
  widget_do "status_text" (set_status_text status) ;;
  installing <- gets is_installing ;;
  widget_do "status_label"
            (set_status_label (if installing then "🟡 Working" else "⚪ Ready")).

(** [config_path.exists()] *)
Definition config_exists : bool :=
  match config_json env with NoFile => false | _ => true end.

(** [with open(config_path, 'r') as f: json.load(f)] *)
Definition open_and_load : M json :=
  match config_json env with
  | Loaded v => ret v
  | LoadRaises e => raise e
  | NoFile => raise (mk_exn "FileNotFoundError" "config.json")
  end.

Definition load_config : M unit :=
  if config_exists then
    try_except
      (v <- open_and_load ;; modify (set_config v))
      (fun e =>
         log_message ("Error loading config: " ++ exn_msg e) ;;
         modify (set_config (JObj [])))
  else
    modify (set_config (JObj [])).

(** One probe of [auto_detect_package_managers]: a [try] whose bare
    [except] passes. *)
Definition probe (name : string) : M unit :=
  try_except
    (result <- run [name; "--version"] ;;
     if (returncode result =? 0)%Z then
       modify (fun s => set_package_managers
                          (dict_set name (strip (stdout result)) (package_managers s)) s)
     else ret tt)
    (fun _ => ret tt).

Definition auto_detect_package_managers : M unit :=
  modify (set_package_managers []) ;;
  probe "choco" ;;
  probe "scoop" ;;
  probe "winget" ;;
  pms <- gets package_managers ;;
  let pm_text := join " | " (map (fun item => fst item ++ ": " ++ snd item) pms) in
  widget_do "pm_status"
            (set_pm_status (if pm_text =? "" then "No package managers detected"
                            else pm_text)).

Definition load_available_stacks : M unit :=
  cfg <- gets config ;;
  has_stacks <- lift (py_in "stacks" cfg) ;;
  if has_stacks then
    stacks <- lift (py_getitem cfg "stacks") ;;
    modify (set_available_stacks stacks) ;;
    items <- lift (py_items stacks) ;;
    for_each items (fun item =>
      enabled <- lift (py_get (snd item) "enabled" (JBool true)) ;;
      if truthy enabled then
        widget_do "stack_listbox"
                  (fun w => set_stack_listbox (stack_listbox w ++ [fst item]) w)
      else ret tt)
  else ret tt.

(** Starting the worker thread is recorded; the thread's body is
    [run_installation], a transition of its own. *)
Definition start_installation : M unit :=
  installing <- gets is_installing ;;
  if installing then ret tt
  else
    modify (set_is_installing true) ;;
    widget_do "install_btn" (set_install_btn "disabled") ;;
    widget_do "progress" (set_progress_packed true) ;;
    widget_do "progress" (set_progress_running true) ;;
    modify (fun s => set_threads_started (S (threads_started s)) s).

Definition detect_best_package_manager (package_managers : dict string) : string :=
  if dict_mem "choco" package_managers then "choco"
  else if dict_mem "winget" package_managers then "winget"
  else if dict_mem "scoop" package_managers then "scoop"
  else "winget".

(** The command line [run_installation] gives to [Popen]. *)
Definition install_cmd (pm : string) (debug verbose : bool) : list string :=
  let cmd := ["powershell"; "-ExecutionPolicy"; "Bypass"; "-File"; "setup.ps1";
              "-PackageManager"; pm] in
  let cmd := if debug then (cmd ++ ["-Debug"])%list else cmd in
  if verbose then (cmd ++ ["-Verbose"])%list else cmd.

Definition run_installation : M unit :=
  try_finally
    (try_except
       (log_message "Starting installation..." ;;
        update_status "Installing packages..." ;;
        pm <- widget_get "pm_var" pm_var ;;
        pm <- (if pm =? "auto"
               then pms <- gets package_managers ;;
                    ret (detect_best_package_manager pms)
               else ret pm) ;;
        debug <- widget_get "debug_var" debug_var ;;
        verbose <- widget_get "logging_var" logging_var ;;
        process <- Popen (install_cmd pm debug verbose) ;;
        for_stdout process (fun line =>
          log_message (strip line) ;; update_idletasks) ;;
        code <- wait process ;;
        if (code =? 0)%Z then
          log_message "Installation completed successfully!" ;;
          update_status "Installation completed"
        else
          log_message ("Installation failed with code " ++ str_int code) ;;
          update_status "Installation failed")
       (fun e =>
          log_message ("Error during installation: " ++ exn_msg e) ;;
          update_status "Installation error"))
    (modify (set_is_installing false) ;;
     widget_do "install_btn" (set_install_btn "normal") ;;
     widget_do "progress" (set_progress_running false) ;;
     widget_do "progress" (set_progress_packed false)).

Definition refresh_log : M unit :=
  widget_do "log_text" (set_log_text "") ;;
  entries <- gets installation_log ;;
  for_each entries (fun entry =>
    widget_do "log_text" (fun w => set_log_text (log_text w ++ entry) w)).

(** [confirmed] is the answer of [messagebox.askyesno]. *)
Definition clear_log (confirmed : bool) : M unit :=
  if confirmed then
    modify (set_installation_log []) ;;
    widget_do "log_text" (set_log_text "") ;;
    log_message "Log cleared"
  else ret tt.

(** [configure_styles] sets colours and ttk styles only. *)
Definition configure_styles : M unit := ret tt.

Definition created_widgets : Widgets :=
  {| status_label := "⚪ Ready";
     progress_packed := false;
     progress_running := false;
     pm_var := "auto";
     install_btn := "normal";
     stack_listbox := [];
     debug_var := false;
     logging_var := true;
     log_text := "";
     status_text := "Ready to setup your development environment";
     pm_status := "" |}.

Definition create_widgets : M unit := modify (set_widgets (Some created_widgets)).

(** The object once [__init__] has assigned its state variables. *)
Definition state_variables : DevSetupGUI :=
  {| is_installing := false;
     installation_log := [];
     config := JObj [];
     package_managers := [];
     available_stacks := JObj [];
     widgets := None;
     now_calls := 0;
     threads_started := 0;
     popen_calls := [] |}.

Definition __init__ : outcome unit * DevSetupGUI :=
  (load_config ;;
   configure_styles ;;
   create_widgets ;;
   auto_detect_package_managers ;;
   load_available_stacks) state_variables.

End Methods.

(** ** Vocabulary of the specification *)

(** The three known package managers. *)
Definition known_managers : list string := ["choco"; "winget"; "scoop"].

(** The fixed priority order of auto-selection and its default. *)
Definition priority_order : list string := ["choco"; "winget"; "scoop"].
Definition default_manager : string := "winget".

(** Auto-selection in the specification's words: the first manager of the
    priority order that is present in the registry, else the default. *)
Definition first_present (registry : dict string) : string :=
  match find (fun m => dict_mem m registry) priority_order with
  | Some m => m
  | None => default_manager
  end.

Definition is_digit (c : ascii) : bool :=
  let n := nat_of_ascii c in (48 <=? n)%nat && (n <=? 57)%nat.

Definition char_at (i : nat) (p : ascii -> bool) (s : string) : bool :=
  match String.get i s with
  | Some c => p c
  | None => false
  end.

(** The line starts with a bracketed [HH:MM:SS]. *)
Definition timestamped (line : string) : bool :=
  char_at 0 (Ascii.eqb "[") line &&
  char_at 1 is_digit line && char_at 2 is_digit line &&
  char_at 3 (Ascii.eqb ":") line &&
  char_at 4 is_digit line && char_at 5 is_digit line &&
  char_at 6 (Ascii.eqb ":") line &&
  char_at 7 is_digit line && char_at 8 is_digit line &&
  char_at 9 (Ascii.eqb "]") line.

(** The entry [log_message] builds for [message] at the [n]-th reading of
    the clock. *)
Definition log_entry (env : Env) (n : nat) (message : string) : string :=
  "[" ++ strftime_HMS (datetime_of_seconds (clock env n)) ++ "] " ++ message ++ nl.

(** The entries that successive [log_message] calls build, the first at
    the [n]-th reading of the clock. *)
Fixpoint log_entries (env : Env) (n : nat) (messages : list string) : list string :=
  match messages with
  | [] => []
  | m :: r => log_entry env n m :: log_entries env (S n) r
  end.

(** The object after [log_message] was called for each message in turn,
    whether the calls returned or raised. *)
Definition log_calls (env : Env) (messages : list string) (s : DevSetupGUI) : DevSetupGUI :=
  fold_left (fun st message => snd (log_message env message st)) messages s.

(** The text a widget shows once the entries were inserted one after the
    other. *)
Definition text_of (entries : list string) : string :=
  fold_right String.append "" entries.

(** The command line [run_installation] launches from a state whose
    widgets are [w]. *)
Definition launch_cmd (s : DevSetupGUI) (w : Widgets) : list string :=
  install_cmd (if pm_var w =? "auto"
               then detect_best_package_manager (package_managers s)
               else pm_var w)
              (debug_var w) (logging_var w).

(** The exception a child raises while it is spawned, read or waited for. *)
Definition raised (c : child) : option exn :=
  match c with
  | SpawnRaises e => Some e
  | Spawned _ (ReadRaises e) => Some e
  | Spawned _ (WaitRaises e) => Some e
  | Spawned _ (Exits _) => None
  end.

(** The lines of output that are read from a child. *)
Definition lines_read (c : child) : list string :=
  match c with
  | SpawnRaises _ => []
  | Spawned lines _ => lines
  end.

(** The message of the entry that ends the log of a run. *)
Definition closing_message (c : child) : string :=
  match raised c with
  | Some e => "Error during installation: " ++ exn_msg e
  | None =>
      match c with
      | Spawned _ (Exits code) =>
          if (code =? 0)%Z then "Installation completed successfully!"
          else "Installation failed with code " ++ str_int code
      | _ => ""
      end
  end.

(** The version probe of a manager succeeds: it runs and exits with 0. *)
Definition probe_succeeds (env : Env) (name : string) : bool :=
  match subprocess_run env [name; "--version"] with
  | Ret result => (returncode result =? 0)%Z
  | Raise _ => false
  end.

(** The version a successful probe reports. *)
Definition probe_version (env : Env) (name : string) : string :=
  match subprocess_run env [name; "--version"] with
  | Ret result => strip (stdout result)
  | Raise _ => ""
  end.

(** The fixed start of the provisioning command line, up to the option
    that takes the manager. *)
Definition script_invocation : list string :=
  ["powershell"; "-ExecutionPolicy"; "Bypass"; "-File"; "setup.ps1"; "-PackageManager"].

(** ** Sample environments and states *)

Module Sample.

Definition decode_error : exn :=
  mk_exn "JSONDecodeError" "Expecting value: line 1 column 1 (char 0)".

Definition not_found : exn :=
  mk_exn "FileNotFoundError" "[WinError 2] The system cannot find the file specified".

(** Chocolatey answers, Scoop is not installed, Winget exits with 1; the
    provisioning script prints two lines and exits with 3. *)
Definition env : Env :=
  {| clock := fun n => 3725 + n;
     config_json := NoFile;
     subprocess_run := fun argv =>
       match argv with
       | "choco" :: _ => Ret (mk_completed 0 ("2.2.2" ++ nl))
       | "scoop" :: _ => Raise not_found
       | _ => Ret (mk_completed 1 "")
       end;
     subprocess_Popen := fun _ =>
       Spawned ["Installing git" ++ nl; "failed" ++ nl] (Exits 3) |}.

(** The same machine with a corrupt [config.json]. *)
Definition env_malformed : Env :=
  mk_env (clock env) (LoadRaises decode_error) (subprocess_run env)
         (subprocess_Popen env).

(** The same machine without PowerShell. *)
Definition env_no_powershell : Env :=
  mk_env (clock env) NoFile (subprocess_run env) (fun _ => SpawnRaises not_found).

(** The object after a start-up without configuration file. *)
Definition ready : DevSetupGUI := snd (__init__ env).

(** Its widgets: as created, the status bar naming Chocolatey. *)
Definition ready_widgets : Widgets := set_pm_status "choco: 2.2.2" created_widgets.

(** The object while an installation runs. *)
Definition busy : DevSetupGUI := snd (start_installation ready).

(** Its widgets: the button disabled, the progress bar shown and running. *)
Definition busy_widgets : Widgets :=
  set_progress_running true
    (set_progress_packed true (set_install_btn "disabled" ready_widgets)).

(** The object with two lines in its log. *)
Definition logged : DevSetupGUI :=
  snd (for_each ["one"; "two"] (log_message env) ready).

(** Its widgets: the display shows the two lines. *)
Definition logged_widgets : Widgets :=
  set_log_text (text_of (installation_log logged)) ready_widgets.

End Sample.

(** ** White space and decimal numerals, as the specification reads them *)

(** The text is exactly one white-space character. *)
Definition is_space_char (s : string) : bool :=
  match s with
  | String c "" => isspace c
  | String c1 (String c2 "") => isspace2 c1 c2
  | String c1 (String c2 (String c3 "")) => isspace3 c1 c2 c3
  | _ => false
  end.

(** The text consists of white-space characters only. *)
Inductive blank : string -> Prop :=
| blank_empty : blank ""
| blank_space (a s : string) : is_space_char a = true -> blank s -> blank (a ++ s).

Definition starts_with_space (s : string) : Prop :=
  exists a r, s = a ++ r /\ is_space_char a = true.

Definition ends_with_space (s : string) : Prop :=
  exists r a, s = r ++ a /\ is_space_char a = true.

(** [t] is [s] without its leading and trailing white space. *)
Definition stripped_of (s t : string) : Prop :=
  (exists a b, s = a ++ t ++ b /\ blank a /\ blank b) /\
  ~ starts_with_space t /\ ~ ends_with_space t.

Definition digit_value (c : ascii) : option Z :=
  let n := nat_of_ascii c in
  if (48 <=? n)%nat && (n <=? 57)%nat then Some (Z.of_nat (n - 48)) else None.

Fixpoint digits_value (s : string) (acc : Z) : option Z :=
  match s with
  | "" => Some acc
  | String c r =>
      match digit_value c with
      | Some d => digits_value r (10 * acc + d)
      | None => None
      end
  end.

(** The integer a decimal numeral denotes: digits, after an optional
    minus sign. *)
Definition decimal_value (s : string) : option Z :=
  match s with
  | "" => None
  | String c r =>
      if Ascii.eqb c "-" then
        match r with
        | "" => None
        | _ => option_map Z.opp (digits_value r 0)
        end
      else digits_value s 0
  end.

(** The value of the digits of the standard library's decimal numbers,
    most significant first. *)
Fixpoint uint_value (d : Decimal.uint) (acc : Z) : Z :=
  match d with
  | Decimal.Nil => acc
  | Decimal.D0 l => uint_value l (10 * acc + 0)
  | Decimal.D1 l => uint_value l (10 * acc + 1)
  | Decimal.D2 l => uint_value l (10 * acc + 2)
  | Decimal.D3 l => uint_value l (10 * acc + 3)
  | Decimal.D4 l => uint_value l (10 * acc + 4)
  | Decimal.D5 l => uint_value l (10 * acc + 5)
  | Decimal.D6 l => uint_value l (10 * acc + 6)
  | Decimal.D7 l => uint_value l (10 * acc + 7)
  | Decimal.D8 l => uint_value l (10 * acc + 8)
  | Decimal.D9 l => uint_value l (10 * acc + 9)
  end.

(** ** The remaining methods *)

(** [sep.join(v)]: the items of a list must all be [str]; a [str] is
    joined character by character and a [dict] by its keys. *)
Fixpoint first_non_str (l : list json) (i : nat) : option (nat * json) :=
  match l with
  | [] => None
  | JStr _ :: r => first_non_str r (S i)
  | v :: _ => Some (i, v)
  end.

Fixpoint str_items (l : list json) : list string :=
  match l with
  | [] => []
  | JStr s :: r => s :: str_items r
  | _ :: r => str_items r
  end.

(** A byte that continues a character. *)
Definition is_continuation (c : ascii) : bool :=
  let n := nat_of_ascii c in (128 <=? n)%nat && (n <=? 191)%nat.

(** The characters of a [str], each with the bytes that continue it. *)
Fixpoint chars (s : string) : list string :=
  match s with
  | "" => []
  | String c r =>
      match r with
      | String c' _ =>
          if is_continuation c' then
            match chars r with
            | x :: rest => String c x :: rest
            | [] => [String c ""]
            end
          else String c "" :: chars r
      | "" => [String c ""]
      end
  end.

Definition py_join (sep : string) (v : json) : outcome string :=
  match v with
  | JArr l =>
      match first_non_str l 0 with
      | None => Ret (join sep (str_items l))
      | Some (i, x) =>
          Raise (TypeError ("sequence item " ++ str_int (Z.of_nat i)
                            ++ ": expected str instance, " ++ type_name x ++ " found"))
      end
  | JStr s => Ret (join sep (chars s))
  | JObj d => Ret (join sep (map fst d))
  | _ => Raise (TypeError "can only join an iterable")
  end.

(** [f.writelines(lines)]: the text written. *)
Definition writelines (lines : list string) : string :=
  fold_right String.append "" lines.

(** How the file system answers [save_log]: [open(filename, 'w')] raises;
    or the file is opened, which empties it, and writing or closing it
    raises, leaving [partial] in the file; or the whole text is written. *)
Inductive save_io : Type :=
| OpenRaises (e : exn)
| WriteRaises (e : exn) (partial : string)
| Written.

Section Actions.

Variable env : Env.

(** The text is returned: it is what the details widget holds after the
    call, which deletes the widget's contents and inserts the text. *)
Definition show_stack_details (stack_name : string) (stack_config : json) : M string :=
  let details := "Stack: " ++ stack_name ++ nl ++ nl in
  packages <- lift (py_get stack_config "packages" (JArr [])) ;;
  joined <- lift (py_join ", " packages) ;;
  let details := details ++ "Packages: " ++ joined ++ nl ++ nl in
  has_python <- lift (py_in "pythonPackages" stack_config) ;;
  details <- (if has_python then
                python <- lift (py_getitem stack_config "pythonPackages") ;;
                joined <- lift (py_join ", " python) ;;
                ret (details ++ "Python Packages: " ++ joined ++ nl ++ nl)
              else ret details) ;;
  has_vscode <- lift (py_in "vscodeExtensions" stack_config) ;;
  details <- (if has_vscode then
                vscode <- lift (py_getitem stack_config "vscodeExtensions") ;;
                joined <- lift (py_join ", " vscode) ;;
                ret (details ++ "VS Code Extensions: " ++ joined ++ nl ++ nl)
              else ret details) ;;
  widget_do "stack_details" (fun w => w) ;;
  widget_do "stack_details" (fun w => w) ;;
  ret details.

(** [selection] is what [self.stack_listbox.curselection()] returns; the
    result is the text shown, if the details were replaced. *)
Definition on_stack_select (selection : list nat) : M (option string) :=
  names <- widget_get "stack_listbox" stack_listbox ;;
  match selection with
  | [] => ret None
  | i :: _ =>
      let stack_name := nth i names "" in
      stacks <- gets available_stacks ;;
      listed <- lift (py_in stack_name stacks) ;;
      if listed then
        stack_config <- lift (py_getitem stacks stack_name) ;;
        details <- show_stack_details stack_name stack_config ;;
        ret (Some details)
      else ret None
  end.

Definition setup_stack (stack_name : string) : M unit :=
  log_message env ("Setting up " ++ stack_name ++ " stack...").

(** [messagebox.showinfo] only. *)
Definition show_custom_setup : M unit := ret tt.

Definition dry_run : M unit :=
  log_message env "Performing dry run...".

(** [confirmed] is the answer of [messagebox.askyesno]. *)
Definition reset_setup (confirmed : bool) : M unit :=
  if confirmed then log_message env "Setup reset" else ret tt.

(** [filename] is what [filedialog.asksaveasfilename] returns, empty when
    the dialog is cancelled; [io] is how the file system answers; [files]
    maps the paths of the text files to their contents.  The result is the
    outcome and the object, and the files as the call leaves them. *)
Definition save_log (filename : string) (io : save_io) (files : dict string)
           (s : DevSetupGUI) : (outcome unit * DevSetupGUI) * dict string :=
  if negb (filename =? "") then
    match io with
    | OpenRaises e => ((Raise e, s), files)
    | WriteRaises e partial => ((Raise e, s), dict_set filename partial files)
    | Written =>
        (log_message env ("Log saved to " ++ filename) s,
         dict_set filename (writelines (installation_log s)) files)
    end
  else ((Ret tt, s), files).

End Actions.

(** What the user, or the worker thread, does with the constructed GUI. *)
Inductive action : Type :=
| SetupStack (stack_name : string)
| ShowCustomSetup
| StartInstallation
| RunInstallation                       (* the body of the worker thread *)
| DryRun
| ResetSetup (confirmed : bool)
| SelectStack (selection : list nat)
| RefreshLog
| SaveLog (filename : string) (io : save_io) (files : dict string)
| ClearLog (confirmed : bool).

Definition perform (env : Env) (a : action) : M unit :=
  match a with
  | SetupStack stack_name => setup_stack env stack_name
  | ShowCustomSetup => show_custom_setup
  | StartInstallation => start_installation
  | RunInstallation => run_installation env
  | DryRun => dry_run env
  | ResetSetup confirmed => reset_setup env confirmed
  | SelectStack selection => on_stack_select selection ;; ret tt
  | RefreshLog => refresh_log
  | SaveLog filename io files => fun s => fst (save_log env filename io files s)
  | ClearLog confirmed => clear_log env confirmed
  end.

(** The object after a sequence of actions, each in the environment it
    meets, whether it returns or raises. *)
Definition session (steps : list (Env * action)) (s : DevSetupGUI) : DevSetupGUI :=
  fold_left (fun st step => snd (perform (fst step) (snd step) st)) steps s.

(** ** More vocabulary *)

(** A stack as the configuration file describes it. *)
Record Stack : Type := mk_stack {
  stack_packages : option (list string);
  stack_python : option (list string);
  stack_vscode : option (list string);
  stack_enabled : option bool
}.

Definition optional_key (key : string) (value : option json) : dict json :=
  match value with
  | Some v => [(key, v)]
  | None => []
  end.

Definition json_strings (l : list string) : json := JArr (map JStr l).

(** The object [json.load] returns for a stack. *)
Definition stack_json (st : Stack) : json :=
  JObj (optional_key "enabled" (option_map JBool (stack_enabled st)) ++
        optional_key "packages" (option_map json_strings (stack_packages st)) ++
        optional_key "pythonPackages" (option_map json_strings (stack_python st)) ++
        optional_key "vscodeExtensions" (option_map json_strings (stack_vscode st)))%list.

(** A stack is listed unless it is disabled. *)
Definition listed (st : Stack) : bool :=
  match stack_enabled st with
  | Some b => b
  | None => true
  end.

Definition section_text (title : string) (items : list string) : string :=
  title ++ ": " ++ join ", " items ++ nl ++ nl.

Definition optional_section (title : string) (items : option (list string)) : string :=
  match items with
  | Some l => section_text title l
  | None => ""
  end.

(** The details of a stack as they read. *)
Definition details_text (stack_name : string) (st : Stack) : string :=
  "Stack: " ++ stack_name ++ nl ++ nl ++
  section_text "Packages" (match stack_packages st with Some l => l | None => [] end) ++
  optional_section "Python Packages" (stack_python st) ++
  optional_section "VS Code Extensions" (stack_vscode st).

(** The configuration whose [stacks] are the named stacks, in order. *)
Definition stacks_json (stacks : list (string * Stack)) : json :=
  JObj (map (fun item => (fst item, stack_json (snd item))) stacks).

Definition config_of (stacks : list (string * Stack)) : json :=
  JObj [("stacks", stacks_json stacks)].

Definition listed_names (stacks : list (string * Stack)) : list string :=
  map fst (filter (fun item => listed (snd item)) stacks).

Definition is_object (v : json) : bool :=
  match v with JObj _ => true | _ => false end.

(** ["enabled"] is absent or truthy. *)
Definition enabled_entry (v : json) : bool :=
  match v with
  | JObj d => match dict_get "enabled" d with Some x => truthy x | None => true end
  | _ => false
  end.

(** The state shows what it logged: the widgets exist, the display is the
    concatenation of the in-memory log, and every entry of the log starts
    with its bracketed time. *)
Definition consistent (s : DevSetupGUI) : Prop :=
  exists w,
    widgets s = Some w /\
    log_text w = text_of (installation_log s) /\
    Forall (fun e => timestamped e = true) (installation_log s).

(** The invariant is kept whatever the outcome. *)
Definition preserves {A} (I : DevSetupGUI -> Prop) (m : M A) : Prop :=
  forall s, I s -> I (snd (m s)).

(** The log starts with the entries [l]. *)
Definition log_extends (l : list string) (s : DevSetupGUI) : Prop :=
  exists more, installation_log s = (l ++ more)%list.

(** The buttons whose methods only write a line to the log. *)
Definition only_logs (a : action) : bool :=
  match a with
  | SetupStack _ | ShowCustomSetup | DryRun | ResetSetup _ => true
  | _ => false
  end.

(** The manager a run passes to the script. *)
Definition chosen_manager (s : DevSetupGUI) (w : Widgets) : string :=
  if pm_var w =? "auto" then detect_best_package_manager (package_managers s)
  else pm_var w.

(** The action empties the log. *)
Definition clears (a : action) : bool :=
  match a with ClearLog true => true | _ => false end.

(** The action writes a file and the file system fails it, or it reads
    the stack configuration. *)
Definition may_raise (a : action) : bool :=
  match a with
  | SaveLog filename (OpenRaises _) _ => negb (filename =? "")
  | SaveLog filename (WriteRaises _ _) _ => negb (filename =? "")
  | SelectStack (_ :: _) => true
  | _ => false
  end.

(** What an invariant of the log may look at: the in-memory log and the
    text the display holds, if the display exists. *)
Definition log_view (s : DevSetupGUI) : list string * option string :=
  (installation_log s, option_map log_text (widgets s)).

Definition keeps_view {A} (m : M A) : Prop :=
  forall s, log_view (snd (m s)) = log_view s.

Definition depends_on_view (I : DevSetupGUI -> Prop) : Prop :=
  forall s s', log_view s' = log_view s -> I s -> I s'.

(** The method leaves the object as it found it. *)
Definition unchanged {A} (m : M A) : Prop := forall s, snd (m s) = s.

(** The registry the probes of an environment give. *)
Definition detected (env : Env) : dict string :=
  let after (name : string) (registry : dict string) :=
    if probe_succeeds env name
    then dict_set name (probe_version env name) registry
    else registry in
  after "winget" (after "scoop" (after "choco" [])).

Definition is_known (name : string) : bool :=
  existsb (String.eqb name) known_managers.

(** The status text that ends a run. *)
Definition closing_status (c : child) : string :=
  match raised c with
  | Some _ => "Installation error"
  | None =>
      match c with
      | Spawned _ (Exits code) =>
          if (code =? 0)%Z then "Installation completed" else "Installation failed"
      | _ => ""
      end
  end.

(** The messages a run logs: its start, the stripped lines of output it
    read, and its closing message. *)
Definition run_messages (c : child) : list string :=
  ("Starting installation..." :: map strip (lines_read c) ++ [closing_message c])%list.

(** The object a run of [run_installation] leaves, from a state whose
    widgets are [w]. *)
Definition finished (env : Env) (s : DevSetupGUI) (w : Widgets) : DevSetupGUI :=
  let c := subprocess_Popen env (launch_cmd s w) in
  let entries := log_entries env (now_calls s) (run_messages c) in
  {| is_installing := false;
     installation_log := installation_log s ++ entries;
     config := config s;
     package_managers := package_managers s;
     available_stacks := available_stacks s;
     widgets :=
       Some {| status_label := if is_installing s then "🟡 Working" else "⚪ Ready";
               progress_packed := false;
               progress_running := false;
               pm_var := pm_var w;
               install_btn := "normal";
               stack_listbox := stack_listbox w;
               debug_var := debug_var w;
               logging_var := logging_var w;
               log_text := log_text w ++ text_of entries;
               status_text := closing_status c;
               pm_status := pm_status w |};
     now_calls := now_calls s + length (run_messages c);
     threads_started := threads_started s;
     popen_calls := popen_calls s ++ [launch_cmd s w] |}.

(** The options after the manager on the provisioning command line. *)
Definition flags (debug verbose : bool) : list string :=
  ((if debug then ["-Debug"] else []) ++ (if verbose then ["-Verbose"] else []))%list.

Definition is_string (v : json) : bool :=
  match v with JStr _ => true | _ => false end.

(** The text of the status bar for a registry. *)
Definition pm_status_text (registry : dict string) : string :=
  let pm_text := join " | " (map (fun item => fst item ++ ": " ++ snd item) registry) in
  if pm_text =? "" then "No package managers detected" else pm_text.

(** The object of [__init__] with the configuration [v] once the package
    managers are probed, before the stacks are loaded. *)
Definition probed (env : Env) (v : json) : DevSetupGUI :=
  {| is_installing := false;
     installation_log := [];
     config := v;
     package_managers := detected env;
     available_stacks := JObj [];
     widgets := Some (set_pm_status (pm_status_text (detected env)) created_widgets);
     now_calls := 0;
     threads_started := 0;
     popen_calls := [] |}.

(** ** More samples *)

Module Demo.

Definition web : Stack :=
  mk_stack (Some ["nodejs"; "git"]) None (Some ["dbaeumer.vscode-eslint"]) None.

Definition data : Stack :=
  mk_stack (Some ["python"]) (Some ["numpy"; "pandas"]) None (Some true).

Definition legacy : Stack := mk_stack (Some ["svn"]) None None (Some false).

Definition stacks : list (string * Stack) :=
  [("web-dev", web); ("legacy", legacy); ("data-science", data)].

(** A machine like [Sample.env] whose [config.json] holds these stacks. *)
Definition env : Env :=
  mk_env (clock Sample.env) (Loaded (config_of stacks))
         (subprocess_run Sample.env) (subprocess_Popen Sample.env).

(** The constructed object with that configuration, before its stacks
    are loaded. *)
Definition configured : DevSetupGUI := set_config (config_of stacks) Sample.ready.

(** The object after start-up on that machine, and its widgets. *)
Definition ready : DevSetupGUI := snd (__init__ env).

Definition ready_widgets : Widgets :=
  set_stack_listbox ["web-dev"; "data-science"] Sample.ready_widgets.

(** The constructed object with a configuration whose second stack is a
    list, before its stacks are loaded. *)
Definition damaged_items : dict json :=
  [("web-dev", stack_json web); ("broken", JArr [JStr "git"]); ("data-science", stack_json data)].

Definition damaged : DevSetupGUI :=
  set_config (JObj [("stacks", JObj damaged_items)]) Sample.ready.

(** The provisioning script succeeds. *)
Definition env_success : Env :=
  mk_env (clock Sample.env) NoFile (subprocess_run Sample.env)
         (fun _ => Spawned ["  Installing git  " ++ nl; "done" ++ nl] (Exits 0)).

(** No package manager answers. *)
Definition env_bare : Env :=
  mk_env (clock Sample.env) NoFile (fun _ => Raise Sample.not_found)
         (subprocess_Popen Sample.env).

(** The user chose Scoop. *)
Definition scoop_widgets : Widgets :=
  mk_widgets (status_label Sample.ready_widgets) false false "scoop" "normal" []
             true true "" (status_text Sample.ready_widgets)
             (pm_status Sample.ready_widgets).

Definition scoop_chosen : DevSetupGUI := set_widgets (Some scoop_widgets) Sample.ready.

(** A session: a dry run, two clicks on the install button, the worker's
    run, a refresh and a save. *)
Definition steps : list (Env * action) :=
  [(Sample.env, DryRun); (Sample.env, StartInstallation);
   (Sample.env_no_powershell, StartInstallation);
   (Sample.env, RunInstallation); (Sample.env, RefreshLog);
   (Sample.env, SaveLog "setup.log" Written [])].

(** U+00A0 and U+3000. *)
Definition nbsp : string := String (ascii_of_nat 194) (String (ascii_of_nat 160) "").
Definition ideographic_space : string :=
  String (ascii_of_nat 227) (String (ascii_of_nat 128) (String (ascii_of_nat 128) "")).

(** Chocolatey prints its version between no-break spaces; the script
    prints a line between ideographic spaces and exits with 0. *)
Definition env_unicode : Env :=
  mk_env (clock Sample.env) NoFile
         (fun argv =>
            match argv with
            | "choco" :: _ => Ret (mk_completed 0 (nbsp ++ "2.2.2" ++ nbsp ++ nl))
            | _ => Raise Sample.not_found
            end)
         (fun _ => Spawned [ideographic_space ++ "Installing git" ++ nbsp ++ nl] (Exits 0)).

End Demo.

(** ** Strings and timestamps *)

Lemma append_assoc (a b c : string) : (a ++ b) ++ c = a ++ (b ++ c).
Proof.
  induction a as [|x a IH]; simpl.
  - reflexivity.
  - now rewrite IH.
Qed.

Lemma append_empty_r (a : string) : a ++ "" = a.
Proof.
  induction a as [|x a IH]; simpl.
  - reflexivity.
  - now rewrite IH.
Qed.

Lemma text_of_app (l1 l2 : list string) :
  text_of (l1 ++ l2) = text_of l1 ++ text_of l2.
Proof.
  induction l1 as [|x l1 IH]; simpl.
  - reflexivity.
  - unfold text_of in *. simpl. now rewrite IH, append_assoc.
Qed.

Lemma is_digit_digit (d : nat) : d < 10 -> is_digit (digit d) = true.
Proof.
  intros H.
  do 10 (destruct d as [|d]; [reflexivity|]).
  lia.
Qed.

Lemma timestamped_shape (d1 d2 d3 d4 d5 d6 : nat) (rest : string) :
  d1 < 10 -> d2 < 10 -> d3 < 10 -> d4 < 10 -> d5 < 10 -> d6 < 10 ->
  timestamped
    (String "[" (String (digit d1) (String (digit d2) (String ":"
      (String (digit d3) (String (digit d4) (String ":"
        (String (digit d5) (String (digit d6) (String "]" rest))))))))))
  = true.
Proof.
  intros H1 H2 H3 H4 H5 H6.
  unfold timestamped, char_at. cbn [String.get].
  rewrite !is_digit_digit by assumption.
  reflexivity.
Qed.

Lemma log_entry_timestamped (env : Env) (n : nat) (message : string) :
  timestamped (log_entry env n message) = true.
Proof.
  unfold log_entry, strftime_HMS, two_digits, datetime_of_seconds.
  cbn [hour minute second].
  set (h := (clock env n / 3600) mod 24).
  set (m := (clock env n / 60) mod 60).
  set (sec := clock env n mod 60).
  assert (Hh : h < 24) by (apply Nat.mod_upper_bound; discriminate).
  assert (Hm : m < 60) by (apply Nat.mod_upper_bound; discriminate).
  assert (Hs : sec < 60) by (apply Nat.mod_upper_bound; discriminate).
  cbn [String.append].
  apply timestamped_shape;
    first [ apply Nat.Div0.div_lt_upper_bound; lia
          | apply Nat.mod_upper_bound; discriminate ].
Qed.

Lemma prefix_append (b c : string) : String.prefix b (b ++ c) = true.
Proof.
  induction b as [|x b IH]; simpl.
  - destruct c; reflexivity.
  - destruct (ascii_dec x x) as [_|N]; [exact IH|now elim N].
Qed.

Lemma contains_prefix (b c : string) : contains b (b ++ c) = true.
Proof.
  destruct (b ++ c) eqn:E; cbn [contains]; rewrite <- E, prefix_append; reflexivity.
Qed.

Lemma contains_append_r (a b s : string) :
  contains b s = true -> contains b (a ++ s) = true.
Proof.
  intros H. induction a as [|x a IH]; simpl.
  - exact H.
  - rewrite IH. apply orb_true_r.
Qed.

(** An entry contains the end of its message. *)
Lemma log_entry_contains (env : Env) (n : nat) (a msg : string) :
  contains msg (log_entry env n (a ++ msg)) = true.
Proof.
  unfold log_entry.
  do 3 apply contains_append_r.
  rewrite append_assoc. apply contains_append_r, contains_prefix.
Qed.

Lemma log_entries_length (env : Env) (messages : list string) (n : nat) :
  length (log_entries env n messages) = length messages.
Proof.
  revert n. induction messages as [|m r IH]; intros n; simpl.
  - reflexivity.
  - now rewrite IH.
Qed.

Lemma log_entries_nth (env : Env) (messages : list string) :
  forall n i m,
    nth_error messages i = Some m ->
    nth_error (log_entries env n messages) i = Some (log_entry env (n + i) m).
Proof.
  induction messages as [|x r IH]; intros n i m H.
  - destruct i; discriminate.
  - destruct i as [|i]; simpl in *.
    + injection H as ->. now rewrite Nat.add_0_r.
    + rewrite (IH (S n) i m H). f_equal. f_equal. lia.
Qed.

Lemma log_entries_timestamped (env : Env) (messages : list string) (n : nat) :
  Forall (fun e => timestamped e = true) (log_entries env n messages).
Proof.
  revert n. induction messages as [|m r IH]; intros n; simpl; constructor.
  - apply log_entry_timestamped.
  - apply IH.
Qed.

(** ** White space and numerals *)

Lemma isspace2_lead (c1 c2 : ascii) : isspace2 c1 c2 = true -> isspace c1 = false.
Proof.
  unfold isspace2, isspace. cbv zeta.
  destruct (Nat.eqb_spec (nat_of_ascii c1) 194) as [->|]; [reflexivity|discriminate].
Qed.

Lemma isspace3_lead (c1 c2 c3 : ascii) :
  isspace3 c1 c2 c3 = true -> isspace c1 = false /\ forall c, isspace2 c1 c = false.
Proof.
  unfold isspace3, isspace2, isspace. cbv zeta.
  destruct (Nat.eqb_spec (nat_of_ascii c1) 225) as [->|];
    [intros _; split; reflexivity|].
  destruct (Nat.eqb_spec (nat_of_ascii c1) 226) as [->|];
    [intros _; split; reflexivity|].
  destruct (Nat.eqb_spec (nat_of_ascii c1) 227) as [->|];
    [intros _; split; reflexivity|].
  discriminate.
Qed.

(** Stripping one white-space character at the front changes nothing. *)
Lemma lstrip_space (a s : string) :
  is_space_char a = true -> lstrip (a ++ s) = lstrip s.
Proof.
  destruct a as [|c1 [|c2 [|c3 [|c4 a]]]]; cbn [is_space_char]; intros H;
    try discriminate.
  - cbn. now rewrite H.
  - cbn. now rewrite (isspace2_lead c1 c2 H), H.
  - destruct (isspace3_lead c1 c2 c3 H) as [H1 H2].
    cbn. now rewrite H1, H2, H.
Qed.

Lemma lstrip_blank (s : string) : blank s -> lstrip s = "".
Proof.
  induction 1 as [|a s Ha _ IH]; [reflexivity|].
  now rewrite lstrip_space.
Qed.

(** Either nothing is stripped, and the string starts with no white-space
    character, or one such character is dropped and the rest stripped. *)
Lemma lstrip_cases (s : string) :
  (lstrip s = s /\ ~ starts_with_space s) \/
  (exists a r, s = a ++ r /\ is_space_char a = true /\ lstrip s = lstrip r).
Proof.
  destruct s as [|c1 r1]; [left; split; [reflexivity|]|].
  { intros (a & r & E & Ha). destruct a; [discriminate Ha|discriminate E]. }
  destruct (isspace c1) eqn:H1.
  { right. exists (String c1 ""), r1. cbn. rewrite H1. auto. }
  destruct r1 as [|c2 r2].
  { left. cbn. rewrite H1. split; [reflexivity|].
    intros (a & r & E & Ha).
    destruct a as [|x [|y a]]; cbn in E, Ha; try discriminate.
    injection E as -> _. congruence. }
  destruct (isspace2 c1 c2) eqn:H2.
  { right. exists (String c1 (String c2 "")), r2. cbn. rewrite H1, H2. auto. }
  destruct r2 as [|c3 r3].
  { left. cbn. rewrite H1, H2. split; [reflexivity|].
    intros (a & r & E & Ha).
    destruct a as [|x [|y [|z a]]]; cbn in E, Ha; try discriminate.
    - injection E as -> _. congruence.
    - injection E as -> -> _. congruence. }
  destruct (isspace3 c1 c2 c3) eqn:H3.
  { right. exists (String c1 (String c2 (String c3 ""))), r3.
    cbn. rewrite H1, H2, H3. auto. }
  left. cbn. rewrite H1, H2, H3. split; [reflexivity|].
  intros (a & r & E & Ha).
  destruct a as [|x [|y [|z [|u a]]]]; cbn in E, Ha; try discriminate.
  - injection E as -> _. congruence.
  - injection E as -> -> _. congruence.
  - injection E as -> -> -> _. congruence.
Qed.

Lemma append_length (a b : string) :
  String.length (a ++ b) = String.length a + String.length b.
Proof. induction a as [|x a IH]; simpl; [reflexivity|now rewrite IH]. Qed.

Lemma lstrip_induction (P : string -> string -> Prop) :
  (forall s, ~ starts_with_space s -> P s s) ->
  (forall a r t, is_space_char a = true -> P r t -> P (a ++ r) t) ->
  forall s, P s (lstrip s).
Proof.
  intros Hstop Hstep s.
  remember (String.length s) as n eqn:En.
  revert s En. induction n as [n IH] using lt_wf_ind. intros s En.
  destruct (lstrip_cases s) as [[E Hs]|(a & r & E & Ha & El)].
  - rewrite E. now apply Hstop.
  - rewrite El. subst s. apply Hstep; [exact Ha|].
    apply (IH (String.length r)); [|reflexivity].
    rewrite En, append_length.
    destruct a; [discriminate Ha|]. simpl. lia.
Qed.

Lemma lstrip_split (s : string) : exists a, s = a ++ lstrip s /\ blank a.
Proof.
  apply (lstrip_induction (fun s t => exists a, s = a ++ t /\ blank a)).
  - intros s0 _. exists "". split; [reflexivity|constructor].
  - intros a r t Ha (b & -> & Hb). exists (a ++ b).
    split; [now rewrite append_assoc|now constructor].
Qed.

Lemma lstrip_no_space (s : string) : ~ starts_with_space (lstrip s).
Proof.
  apply (lstrip_induction (fun _ t => ~ starts_with_space t)); auto.
Qed.

Lemma lstrip_empty_blank (s : string) : lstrip s = "" -> blank s.
Proof.
  intros E. destruct (lstrip_split s) as (a & Es & Ha).
  rewrite E, append_empty_r in Es. now subst.
Qed.

Lemma rstrip_split (s : string) : exists b, s = rstrip s ++ b /\ blank b.
Proof.
  induction s as [|c r (b & Er & Hb)]; [exists ""; split; [reflexivity|constructor]|].
  cbn [rstrip]. destruct (String.eqb_spec (lstrip (String c r)) "") as [E|_].
  - exists (String c r). split; [reflexivity|now apply lstrip_empty_blank].
  - exists b. split; [|exact Hb]. cbn. now rewrite <- Er.
Qed.

(** No suffix of what [rstrip] keeps is blank together with what it drops. *)
Lemma rstrip_kept (s : string) :
  forall p q, rstrip s = p ++ q -> q <> "" ->
    exists b, s = p ++ q ++ b /\ blank b /\ lstrip (q ++ b) <> "".
Proof.
  induction s as [|c r IH]; intros p q E Hq.
  - cbn in E. destruct p; [cbn in E; now subst q|discriminate].
  - cbn [rstrip] in E.
    destruct (String.eqb_spec (lstrip (String c r)) "") as [El|Hl].
    + destruct p; [cbn in E; now subst q|discriminate].
    + destruct p as [|x p]; cbn in E.
      * destruct (rstrip_split r) as (b & Er & Hb).
        exists b. subst q. cbn. rewrite <- Er. auto.
      * injection E as <- E.
        destruct (IH p q E Hq) as (b & Er & Hb & Hne).
        exists b. cbn. now rewrite <- Er.
Qed.

Lemma rstrip_no_space (s : string) : ~ ends_with_space (rstrip s).
Proof.
  intros (p & a & E & Ha).
  assert (Hq : a <> "") by (intros ->; discriminate Ha).
  destruct (rstrip_kept s p a E Hq) as (b & _ & Hb & Hne).
  apply Hne, lstrip_blank. now constructor.
Qed.

Lemma strip_stripped_of (s : string) : stripped_of s (strip s).
Proof.
  unfold strip.
  destruct (lstrip_split s) as (a & Ea & Ha).
  destruct (rstrip_split (lstrip s)) as (b & Eb & Hb).
  split; [|split].
  - exists a, b. split; [|auto]. now rewrite <- Eb.
  - intros (x & r & E & Hx).
    apply (lstrip_no_space s). exists x, (r ++ b).
    split; [|exact Hx]. now rewrite Eb, E, append_assoc.
  - apply rstrip_no_space.
Qed.

Lemma digits_value_uint (d : Decimal.uint) :
  forall acc, digits_value (NilEmpty.string_of_uint d) acc = Some (uint_value d acc).
Proof.
  induction d; intros acc; cbn [NilEmpty.string_of_uint digits_value uint_value];
    try reflexivity; apply IHd.
Qed.

Lemma uint_value_acc (d : Decimal.uint) :
  forall acc, Zpos (Pos.of_uint_acc d acc) = uint_value d (Zpos acc).
Proof.
  induction d; intros acc; cbn [Pos.of_uint_acc uint_value];
    try reflexivity; rewrite IHd; f_equal; lia.
Qed.

Lemma uint_value_of_uint (d : Decimal.uint) :
  Z.of_N (Pos.of_uint d) = uint_value d 0.
Proof.
  induction d; cbn [Pos.of_uint uint_value]; try reflexivity;
    try exact IHd; cbn [Z.of_N]; now rewrite uint_value_acc.
Qed.

Lemma decimal_value_uint (d : Decimal.uint) :
  d <> Decimal.Nil ->
  decimal_value (NilEmpty.string_of_uint d) = Some (uint_value d 0).
Proof.
  intros Hd.
  rewrite <- digits_value_uint.
  destruct d; try contradiction; reflexivity.
Qed.

Lemma decimal_value_str_int (n : Z) : decimal_value (str_int n) = Some n.
Proof.
  unfold str_int.
  destruct n as [|p|p]; [reflexivity| |];
    cbn [Z.to_int NilZero.string_of_int];
    pose proof (DecimalPos.Unsigned.to_uint_nonnil p) as Hnil;
    assert (E : NilZero.string_of_uint (Pos.to_uint p)
                = NilEmpty.string_of_uint (Pos.to_uint p))
      by (destruct (Pos.to_uint p); try contradiction; reflexivity);
    rewrite E.
  - rewrite (decimal_value_uint _ Hnil).
    now rewrite <- uint_value_of_uint, DecimalPos.Unsigned.of_to.
  - cbn [decimal_value Ascii.eqb Bool.eqb].
    destruct (NilEmpty.string_of_uint (Pos.to_uint p)) eqn:Es.
    + destruct (Pos.to_uint p); try contradiction; discriminate.
    + rewrite <- Es, digits_value_uint.
      now rewrite <- uint_value_of_uint, DecimalPos.Unsigned.of_to.
Qed.

(** ** The log *)

(** The state [log_message] leaves when the widgets exist. *)
Lemma log_message_run (env : Env) (message : string) (s : DevSetupGUI) (w : Widgets) :
  widgets s = Some w ->
  log_message env message s =
  (Ret tt,
   mk_gui (is_installing s)
          (installation_log s ++ [log_entry env (now_calls s) message])
          (config s) (package_managers s) (available_stacks s)
          (Some (set_log_text (log_text w ++ log_entry env (now_calls s) message) w))
          (S (now_calls s)) (threads_started s) (popen_calls s)).
Proof.
  intros H. destruct s; simpl in *; subst. reflexivity.
Qed.

(** Before the widgets exist [log_message] appends its entry and then
    fails on [self.log_text]. *)
Lemma log_message_without_widgets (env : Env) (message : string) (s : DevSetupGUI) :
  widgets s = None ->
  log_message env message s =
  (Raise (AttributeError "DevSetupGUI" "log_text"),
   set_installation_log (installation_log s ++ [log_entry env (now_calls s) message])
                        (set_now_calls (S (now_calls s)) s)).
Proof.
  intros H. destruct s; simpl in *; subst. reflexivity.
Qed.

(** The state a run of [log_message] calls leaves when the widgets exist. *)
Lemma for_each_log_message (env : Env) (messages : list string) :
  forall (s : DevSetupGUI) (w : Widgets),
    widgets s = Some w ->
    for_each messages (log_message env) s =
    (Ret tt,
     mk_gui (is_installing s)
            (installation_log s ++ log_entries env (now_calls s) messages)
            (config s) (package_managers s) (available_stacks s)
            (Some (set_log_text
                     (log_text w ++ text_of (log_entries env (now_calls s) messages)) w))
            (now_calls s + length messages) (threads_started s) (popen_calls s)).
Proof.
  induction messages as [|m r IH]; intros s w H.
  - destruct s, w; simpl in *; subst.
    unfold ret, set_log_text; simpl.
    now rewrite app_nil_r, append_empty_r, Nat.add_0_r.
  - cbn [for_each]. unfold bind at 1.
    rewrite (log_message_run env m s w H).
    match goal with
    | |- for_each _ _ ?s1 = _ =>
        rewrite (IH s1 (set_log_text (log_text w ++ log_entry env (now_calls s) m) w)
                    eq_refl)
    end.
    cbn [is_installing installation_log config package_managers available_stacks
         now_calls threads_started popen_calls log_entries length].
    f_equal. f_equal.
    + now rewrite <- app_assoc.
    + f_equal. unfold set_log_text.
      cbn [status_label progress_packed progress_running pm_var install_btn
           stack_listbox debug_var logging_var log_text status_text pm_status].
      f_equal. unfold text_of. cbn [fold_right]. now rewrite append_assoc.
    + lia.
Qed.

(** The loop over the child's output is a run of [log_message] calls on
    the stripped lines. *)
Lemma for_each_stripped (env : Env) (lines : list string) :
  forall s,
    for_each lines (fun line => log_message env (strip line) ;; update_idletasks) s =
    for_each (map strip lines) (log_message env) s.
Proof.
  induction lines as [|x r IH]; intros s.
  - reflexivity.
  - cbn [for_each map]. unfold bind at 1 2 4.
    destruct (log_message env (strip x) s) as [[[]|e] s1]; cbn.
    + apply IH.
    + reflexivity.
Qed.

(** Each call appends its entry and reads the clock once, with or
    without widgets. *)
Lemma log_message_log (env : Env) (message : string) (s : DevSetupGUI) :
  installation_log (snd (log_message env message s)) =
    (installation_log s ++ [log_entry env (now_calls s) message])%list /\
  now_calls (snd (log_message env message s)) = S (now_calls s).
Proof.
  destruct (widgets s) as [w|] eqn:H.
  - rewrite (log_message_run env message s w H). split; reflexivity.
  - rewrite (log_message_without_widgets env message s H). split; reflexivity.
Qed.

Lemma log_calls_log (env : Env) (messages : list string) :
  forall s,
    installation_log (log_calls env messages s) =
    (installation_log s ++ log_entries env (now_calls s) messages)%list.
Proof.
  unfold log_calls.
  induction messages as [|m r IH]; intros s; cbn [fold_left log_entries].
  - now rewrite app_nil_r.
  - rewrite IH.
    destruct (log_message_log env m s) as [-> ->].
    now rewrite <- app_assoc.
Qed.

Lemma for_each_log_calls (env : Env) (messages : list string) :
  forall s w,
    widgets s = Some w ->
    for_each messages (log_message env) s = (Ret tt, log_calls env messages s).
Proof.
  unfold log_calls.
  induction messages as [|m r IH]; intros s w H; cbn [for_each fold_left].
  - reflexivity.
  - unfold bind. rewrite (log_message_run env m s w H). cbn [snd].
    match goal with
    | |- for_each _ _ ?s1 = _ => exact (IH s1 _ eq_refl)
    end.
Qed.

(** C8. For every number N and every sequence of N messages, N calls of
    [log_message] one after the other leave the in-memory log equal to the
    old log, entry for entry as it was, followed by exactly N new entries,
    the i-th for the i-th message and of the form [HH:MM:SS] message; on
    the constructed GUI every one of the calls returns normally. *)
Theorem log_message_appends_in_call_order
        (env : Env) (messages : list string) (s : DevSetupGUI) :
  exists entries,
    installation_log (log_calls env messages s) = (installation_log s ++ entries)%list /\
    length entries = length messages /\
    (forall i m, nth_error messages i = Some m ->
       nth_error entries i = Some (log_entry env (now_calls s + i) m)) /\
    Forall (fun e => timestamped e = true) entries /\
    (forall w, widgets s = Some w ->
       for_each messages (log_message env) s = (Ret tt, log_calls env messages s)).
Proof.
  exists (log_entries env (now_calls s) messages).
  split; [apply log_calls_log|].
  split; [apply log_entries_length|].
  split; [intros i m Hi; now apply log_entries_nth|].
  split; [apply log_entries_timestamped|].
  intros w H. now apply (for_each_log_calls env messages s w).
Qed.

Lemma log_message_appends_in_call_order_witness :
  widgets Sample.ready = Some Sample.ready_widgets /\
  nth_error ["one"; "two"; "three"] 1 = Some "two" /\
  exists entries,
    installation_log (log_calls Sample.env ["one"; "two"; "three"] Sample.ready) =
      (installation_log Sample.ready ++ entries)%list /\
    length entries = 3 /\
    nth_error entries 1 = Some (log_entry Sample.env (now_calls Sample.ready + 1) "two") /\
    Forall (fun e => timestamped e = true) entries /\
    for_each ["one"; "two"; "three"] (log_message Sample.env) Sample.ready =
      (Ret tt, log_calls Sample.env ["one"; "two"; "three"] Sample.ready).
Proof.
  split; [reflexivity|]. split; [reflexivity|].
  destruct (log_message_appends_in_call_order
              Sample.env ["one"; "two"; "three"] Sample.ready)
    as (entries & Hlog & Hlen & Hnth & Hts & Hret).
  exists entries.
  split; [exact Hlog|]. split; [exact Hlen|].
  split; [apply (Hnth 1 "two"); reflexivity|].
  split; [exact Hts|].
  apply (Hret Sample.ready_widgets). reflexivity.
Defined.

(** The state the refresh loop leaves. *)
Lemma for_each_insert (entries : list string) :
  forall (s : DevSetupGUI) (w : Widgets),
    widgets s = Some w ->
    for_each entries
      (fun entry => widget_do "log_text" (fun w => set_log_text (log_text w ++ entry) w)) s =
    (Ret tt, set_widgets (Some (set_log_text (log_text w ++ text_of entries) w)) s).
Proof.
  induction entries as [|x r IH]; intros s w H.
  - destruct s, w; simpl in *; subst.
    unfold ret, set_widgets, set_log_text; simpl.
    now rewrite append_empty_r.
  - cbn [for_each]. unfold bind at 1. unfold widget_do at 1. rewrite H.
    match goal with
    | |- for_each _ _ ?s1 = _ => rewrite (IH s1 _ eq_refl)
    end.
    unfold set_widgets, set_log_text, text_of.
    cbn [is_installing installation_log config package_managers available_stacks
         now_calls threads_started popen_calls fold_right
         status_label progress_packed progress_running pm_var install_btn
         stack_listbox debug_var logging_var log_text status_text pm_status].
    now rewrite append_assoc.
Qed.

(** C9. In every state of the in-memory log, [refresh_log] (on the
    constructed GUI) returns normally, leaves the displayed text equal to
    the concatenation of the log's entries in their order, each once, and
    changes nothing else: the in-memory log is the same afterwards. *)
Theorem refresh_log_reproduces_log (s : DevSetupGUI) (w : Widgets) :
  widgets s = Some w ->
  exists s' w',
    refresh_log s = (Ret tt, s') /\
    widgets s' = Some w' /\
    log_text w' = text_of (installation_log s) /\
    installation_log s' = installation_log s /\
    s' = set_widgets (Some (set_log_text (text_of (installation_log s)) w)) s.
Proof.
  intros H.
  exists (set_widgets (Some (set_log_text (text_of (installation_log s)) w)) s).
  exists (set_log_text (text_of (installation_log s)) w).
  split; [|repeat split].
  unfold refresh_log. unfold bind at 1. unfold widget_do at 1. rewrite H.
  unfold bind, gets.
  match goal with
  | |- for_each _ _ ?s1 = _ => rewrite (for_each_insert _ s1 _ eq_refl)
  end.
  destruct s, w; reflexivity.
Qed.

Lemma refresh_log_reproduces_log_witness :
  widgets Sample.logged = Some Sample.logged_widgets /\
  exists s' w',
    refresh_log Sample.logged = (Ret tt, s') /\
    widgets s' = Some w' /\
    log_text w' = text_of (installation_log Sample.logged) /\
    installation_log s' = installation_log Sample.logged /\
    s' = set_widgets
           (Some (set_log_text (text_of (installation_log Sample.logged))
                          Sample.logged_widgets))
           Sample.logged.
Proof.
  split.
  - reflexivity.
  - apply (refresh_log_reproduces_log Sample.logged Sample.logged_widgets).
    reflexivity.
Defined.

(** C2, as stated, fails: after a confirmed [clear_log] the in-memory log
    is not empty, it holds the notice that [clear_log] itself logs. *)
Lemma clear_log_confirmed_not_empty :
  installation_log (snd (clear_log Sample.env true Sample.logged)) <> [] /\
  installation_log (snd (clear_log Sample.env true Sample.logged)) =
  ["[01:02:07] Log cleared" ++ nl].
Proof.
  split.
  - discriminate.
  - reflexivity.
Qed.

(** C2, amended. Without confirmation [clear_log] changes nothing. With
    confirmation (on the constructed GUI) it returns normally, drops every
    earlier entry and leaves the in-memory log with exactly one entry, the
    timestamped notice "Log cleared", which is also all the display shows. *)
Theorem clear_log_leaves_only_notice
        (env : Env) (s : DevSetupGUI) (w : Widgets) :
  widgets s = Some w ->
  clear_log env false s = (Ret tt, s) /\
  exists s' w',
    clear_log env true s = (Ret tt, s') /\
    installation_log s' = [log_entry env (now_calls s) "Log cleared"] /\
    widgets s' = Some w' /\
    log_text w' = log_entry env (now_calls s) "Log cleared".
Proof.
  intros H. split; [reflexivity|].
  unfold clear_log. unfold bind at 1. unfold modify at 1.
  unfold bind at 1. unfold widget_do at 1.
  cbn [widgets set_installation_log]. rewrite H.
  match goal with
  | |- context [log_message env ?m ?s1] => rewrite (log_message_run env m s1 _ eq_refl)
  end.
  do 2 eexists. split; [reflexivity|].
  cbn [installation_log widgets now_calls set_widgets app].
  repeat split.
Qed.

Lemma clear_log_leaves_only_notice_witness :
  widgets Sample.logged = Some Sample.logged_widgets /\
  clear_log Sample.env false Sample.logged = (Ret tt, Sample.logged) /\
  exists s' w',
    clear_log Sample.env true Sample.logged = (Ret tt, s') /\
    installation_log s' = [log_entry Sample.env (now_calls Sample.logged) "Log cleared"] /\
    widgets s' = Some w' /\
    log_text w' = log_entry Sample.env (now_calls Sample.logged) "Log cleared".
Proof.
  split.
  - reflexivity.
  - apply (clear_log_leaves_only_notice Sample.env Sample.logged Sample.logged_widgets).
    reflexivity.
Defined.

(** C4. When the run-state flag is set, [start_installation] returns at
    once and leaves the whole state as it was: the flag, the widgets, the
    log, the count of worker threads and the list of launched commands. *)
Theorem start_installation_while_installing_is_noop (s : DevSetupGUI) :
  is_installing s = true ->
  start_installation s = (Ret tt, s).
Proof.
  intros H. unfold start_installation, bind, gets. now rewrite H.
Qed.

Lemma start_installation_while_installing_is_noop_witness :
  is_installing Sample.busy = true /\
  start_installation Sample.busy = (Ret tt, Sample.busy) /\
  threads_started (snd (start_installation Sample.busy)) = threads_started Sample.busy /\
  popen_calls (snd (start_installation Sample.busy)) = popen_calls Sample.busy.
Proof.
  assert (H : is_installing Sample.busy = true) by reflexivity.
  pose proof (start_installation_while_installing_is_noop Sample.busy H) as E.
  split; [exact H|]. split; [exact E|].
  rewrite E. split; reflexivity.
Defined.

(** C3. For every registry of detected managers, auto-selection returns
    the first manager of the priority order choco, winget, scoop that is a
    key of the registry, and the default winget when none of the three is,
    whatever else the registry holds. *)
Theorem detect_best_package_manager_first_present (registry : dict string) :
  detect_best_package_manager registry = first_present registry /\
  (existsb (fun m => dict_mem m registry) priority_order = false ->
   detect_best_package_manager registry = default_manager).
Proof.
  unfold detect_best_package_manager, first_present, priority_order, default_manager.
  cbn [find existsb].
  destruct (dict_mem "choco" registry); [split; [reflexivity|discriminate]|].
  destruct (dict_mem "winget" registry); [split; [reflexivity|discriminate]|].
  destruct (dict_mem "scoop" registry); split; try reflexivity; discriminate.
Qed.

Lemma detect_best_package_manager_first_present_witness :
  existsb (fun m => dict_mem m [("pip", "24.0")]) priority_order = false /\
  detect_best_package_manager [("pip", "24.0")] = first_present [("pip", "24.0")] /\
  detect_best_package_manager [("pip", "24.0")] = default_manager.
Proof.
  destruct (detect_best_package_manager_first_present [("pip", "24.0")]) as [H1 H2].
  split; [reflexivity|]. split; [exact H1|]. apply H2. reflexivity.
Defined.

(** ** Running a method step by step *)

Lemma bind_ret_run {A B} (m : M A) (k : A -> M B) (s s' : DevSetupGUI) (a : A) :
  m s = (Ret a, s') -> bind m k s = k a s'.
Proof. intros H. unfold bind. now rewrite H. Qed.

Lemma bind_raise_run {A B} (m : M A) (k : A -> M B) (s s' : DevSetupGUI) (e : exn) :
  m s = (Raise e, s') -> bind m k s = (Raise e, s').
Proof. intros H. unfold bind. now rewrite H. Qed.

Lemma bind_assoc {A B C} (m : M A) (f : A -> M B) (k : B -> M C) (s : DevSetupGUI) :
  bind (bind m f) k s = bind m (fun a => bind (f a) k) s.
Proof. unfold bind. destruct (m s) as [[a|e] s']; reflexivity. Qed.

Lemma widget_get_run {A} (attr : string) (proj : Widgets -> A) (s : DevSetupGUI) (w : Widgets) :
  widgets s = Some w -> widget_get attr proj s = (Ret (proj w), s).
Proof. intros H. unfold widget_get. now rewrite H. Qed.

Lemma widget_do_run (attr : string) (f : Widgets -> Widgets) (s : DevSetupGUI) (w : Widgets) :
  widgets s = Some w -> widget_do attr f s = (Ret tt, set_widgets (Some (f w)) s).
Proof. intros H. unfold widget_do. now rewrite H. Qed.

Lemma update_status_run (status : string) (s : DevSetupGUI) (w : Widgets) :
  widgets s = Some w ->
  update_status status s =
  (Ret tt,
   set_widgets
     (Some (set_status_label (if is_installing s then "🟡 Working" else "⚪ Ready")
                             (set_status_text status w))) s).
Proof.
  intros H. unfold update_status, bind, gets, widget_do. rewrite H.
  destruct s; reflexivity.
Qed.

Lemma Popen_spawned (env : Env) (cmd : list string) (s : DevSetupGUI)
      (lines : list string) (fin : child_end) :
  subprocess_Popen env cmd = Spawned lines fin ->
  Popen env cmd s = (Ret (lines, fin), set_popen_calls (popen_calls s ++ [cmd]) s).
Proof. intros H. unfold Popen. now rewrite H. Qed.

Lemma Popen_raises (env : Env) (cmd : list string) (s : DevSetupGUI) (e : exn) :
  subprocess_Popen env cmd = SpawnRaises e ->
  Popen env cmd s = (Raise e, set_popen_calls (popen_calls s ++ [cmd]) s).
Proof. intros H. unfold Popen. now rewrite H. Qed.

Ltac fields :=
  unfold set_is_installing, set_installation_log, set_widgets, set_now_calls,
         set_popen_calls, set_status_label, set_status_text, set_log_text,
         set_install_btn, set_progress_running, set_progress_packed;
  cbn [is_installing installation_log config package_managers available_stacks
       widgets now_calls threads_started popen_calls
       status_label progress_packed progress_running pm_var install_btn
       stack_listbox debug_var logging_var log_text status_text pm_status
       fst snd].

Ltac run_widgets := first [ eassumption | reflexivity ].

Ltac run_step :=
  erewrite bind_ret_run by
    first [ eapply log_message_run; run_widgets
          | eapply update_status_run; run_widgets
          | eapply widget_get_run; run_widgets
          | eapply widget_do_run; run_widgets
          | rewrite for_each_stripped; eapply for_each_log_message; run_widgets
          | eapply Popen_spawned; eassumption
          | reflexivity ];
  fields.

Ltac run_raise :=
  erewrite bind_raise_run by
    first [ eapply Popen_raises; eassumption | reflexivity ];
  fields.

Ltac run_last :=
  first [ erewrite update_status_run by run_widgets
        | erewrite widget_do_run by run_widgets ];
  fields.

Ltac run_all := repeat first [ rewrite bind_assoc | run_step | run_raise | run_last ].

Lemma log_entries_app (env : Env) (l1 l2 : list string) :
  forall n,
    log_entries env n (l1 ++ l2) =
    (log_entries env n l1 ++ log_entries env (n + length l1) l2)%list.
Proof.
  induction l1 as [|x r IH]; intros n; cbn [log_entries app length].
  - now rewrite Nat.add_0_r.
  - rewrite IH. do 3 f_equal. lia.
Qed.

(** What a run of [run_installation] leaves, whatever the child does. *)
Lemma run_installation_run (env : Env) (s : DevSetupGUI) (w : Widgets) :
  widgets s = Some w ->
  exists s',
    run_installation env s = (Ret tt, s') /\
    is_installing s' = false /\
    installation_log s' =
      (installation_log s ++
       log_entries env (now_calls s)
         ("Starting installation..." ::
          map strip (lines_read (subprocess_Popen env (launch_cmd s w))) ++
          [closing_message (subprocess_Popen env (launch_cmd s w))]))%list /\
    popen_calls s' = (popen_calls s ++ [launch_cmd s w])%list.
Proof.
  intros H.
  unfold launch_cmd, run_installation, try_finally, try_except.
  run_step. run_step. run_step.
  destruct (pm_var w =? "auto") eqn:Epm;
    (destruct (subprocess_Popen env _) as [e | lines [e|e|code]] eqn:HP;
     [ | | | destruct (code =? 0)%Z eqn:Ecode ]);
    run_all; unfold for_stdout, wait; fields; run_all;
    try rewrite Ecode; run_all;
    (eexists; split; [reflexivity|]); fields;
    unfold closing_message;
    cbn [lines_read raised map];
    try rewrite Ecode;
    (split; [reflexivity|]); (split; [|reflexivity]);
    cbn [log_entries]; rewrite ?log_entries_app;
    cbn [log_entries app length]; rewrite <- ?app_assoc, ?Nat.add_0_r;
    cbn [app]; reflexivity.
Qed.

(** C5. Whatever exception the child raises, while it is spawned, while
    its output is read or while it is waited for, [run_installation] (on
    the constructed GUI) returns normally, the last entry of the log is the
    timestamped line "Error during installation: " followed by the
    exception's message, the earlier entries are kept, and the run-state
    flag is false afterwards. *)
Theorem run_installation_catches_and_logs
        (env : Env) (s : DevSetupGUI) (w : Widgets) (e : exn) :
  widgets s = Some w ->
  raised (subprocess_Popen env (launch_cmd s w)) = Some e ->
  exists s' earlier n,
    run_installation env s = (Ret tt, s') /\
    is_installing s' = false /\
    installation_log s' =
      (installation_log s ++ earlier ++
       [log_entry env n ("Error during installation: " ++ exn_msg e)])%list /\
    last (installation_log s') "" =
      log_entry env n ("Error during installation: " ++ exn_msg e) /\
    contains (exn_msg e) (last (installation_log s') "") = true.
Proof.
  intros H He.
  destruct (run_installation_run env s w H) as (s' & Hrun & Hflag & Hlog & _).
  unfold closing_message in Hlog. rewrite He in Hlog.
  cbn [log_entries] in Hlog. rewrite log_entries_app in Hlog.
  cbn [log_entries] in Hlog.
  set (lines := map strip (lines_read (subprocess_Popen env (launch_cmd s w)))) in *.
  exists s'.
  exists (log_entry env (now_calls s) "Starting installation..."
            :: log_entries env (S (now_calls s)) lines).
  exists (S (now_calls s) + length lines).
  assert (Hlast : last (installation_log s') "" =
                  log_entry env (S (now_calls s) + length lines)
                            ("Error during installation: " ++ exn_msg e)).
  { rewrite Hlog, app_comm_cons, app_assoc. apply last_last. }
  split; [exact Hrun|]. split; [exact Hflag|].
  split; [exact Hlog|]. split; [exact Hlast|].
  rewrite Hlast. apply log_entry_contains.
Qed.

Lemma run_installation_catches_and_logs_witness :
  widgets Sample.busy = Some Sample.busy_widgets /\
  raised (subprocess_Popen Sample.env_no_powershell
            (launch_cmd Sample.busy
               Sample.busy_widgets))
  = Some Sample.not_found /\
  exists s' earlier n,
    run_installation Sample.env_no_powershell Sample.busy = (Ret tt, s') /\
    is_installing s' = false /\
    installation_log s' =
      (installation_log Sample.busy ++ earlier ++
       [log_entry Sample.env_no_powershell n
          ("Error during installation: " ++ exn_msg Sample.not_found)])%list /\
    last (installation_log s') "" =
      log_entry Sample.env_no_powershell n
        ("Error during installation: " ++ exn_msg Sample.not_found) /\
    contains (exn_msg Sample.not_found) (last (installation_log s') "") = true.
Proof.
  split; [reflexivity|]. split; [reflexivity|].
  apply (run_installation_catches_and_logs
           Sample.env_no_powershell Sample.busy
           Sample.busy_widgets Sample.not_found); reflexivity.
Defined.

(** C6. When the provisioning child is spawned, its output is read to the
    end and it exits with a code other than 0, [run_installation] (on the
    constructed GUI) returns normally, the last entry of the log is the
    timestamped line "Installation failed with code " followed by a
    decimal numeral whose value is the exit code, and the run-state flag
    is false afterwards. *)
Theorem run_installation_reports_exit_code
        (env : Env) (s : DevSetupGUI) (w : Widgets) (lines : list string) (code : Z) :
  widgets s = Some w ->
  subprocess_Popen env (launch_cmd s w) = Spawned lines (Exits code) ->
  code <> 0%Z ->
  exists s' earlier n numeral,
    run_installation env s = (Ret tt, s') /\
    is_installing s' = false /\
    decimal_value numeral = Some code /\
    installation_log s' =
      (installation_log s ++ earlier ++
       [log_entry env n ("Installation failed with code " ++ numeral)])%list /\
    last (installation_log s') "" =
      log_entry env n ("Installation failed with code " ++ numeral) /\
    timestamped (last (installation_log s') "") = true /\
    contains numeral (last (installation_log s') "") = true.
Proof.
  intros H HP Hcode.
  destruct (run_installation_run env s w H) as (s' & Hrun & Hflag & Hlog & _).
  rewrite HP in Hlog. unfold closing_message in Hlog.
  cbn [raised lines_read] in Hlog.
  apply Z.eqb_neq in Hcode. rewrite Hcode in Hlog.
  cbn [log_entries] in Hlog. rewrite log_entries_app in Hlog.
  cbn [log_entries] in Hlog.
  assert (Hlast : last (installation_log s') "" =
                  log_entry env (S (now_calls s) + length (map strip lines))
                            ("Installation failed with code " ++ str_int code)).
  { rewrite Hlog, app_comm_cons, app_assoc. apply last_last. }
  exists s'.
  exists (log_entry env (now_calls s) "Starting installation..."
            :: log_entries env (S (now_calls s)) (map strip lines)).
  exists (S (now_calls s) + length (map strip lines)).
  exists (str_int code).
  split; [exact Hrun|]. split; [exact Hflag|].
  split; [apply decimal_value_str_int|].
  split; [exact Hlog|]. split; [exact Hlast|].
  rewrite Hlast. split; [apply log_entry_timestamped|apply log_entry_contains].
Qed.

Lemma run_installation_reports_exit_code_witness :
  widgets Sample.busy = Some Sample.busy_widgets /\
  subprocess_Popen Sample.env (launch_cmd Sample.busy Sample.busy_widgets) =
    Spawned ["Installing git" ++ nl; "failed" ++ nl] (Exits 3) /\
  3%Z <> 0%Z /\
  last (installation_log (snd (run_installation Sample.env Sample.busy))) "" =
    "[01:02:08] Installation failed with code 3" ++ nl /\
  exists s' earlier n numeral,
    run_installation Sample.env Sample.busy = (Ret tt, s') /\
    is_installing s' = false /\
    decimal_value numeral = Some 3%Z /\
    installation_log s' =
      (installation_log Sample.busy ++ earlier ++
       [log_entry Sample.env n ("Installation failed with code " ++ numeral)])%list /\
    last (installation_log s') "" =
      log_entry Sample.env n ("Installation failed with code " ++ numeral) /\
    timestamped (last (installation_log s') "") = true /\
    contains numeral (last (installation_log s') "") = true.
Proof.
  split; [reflexivity|]. split; [reflexivity|]. split; [discriminate|].
  split; [reflexivity|].
  apply (run_installation_reports_exit_code
           Sample.env Sample.busy Sample.busy_widgets
           ["Installing git" ++ nl; "failed" ++ nl] 3).
  - reflexivity.
  - reflexivity.
  - discriminate.
Defined.

(** Auto-selection never leaves the three known managers. *)
Lemma detect_best_package_manager_known (registry : dict string) :
  In (detect_best_package_manager registry) known_managers.
Proof.
  unfold detect_best_package_manager, known_managers.
  destruct (dict_mem "choco" registry); [now left|].
  destruct (dict_mem "winget" registry); [right; now left|].
  destruct (dict_mem "scoop" registry); [right; right; now left|right; now left].
Qed.

Lemma install_cmd_shape (pm : string) (debug verbose : bool) :
  exists flags, install_cmd pm debug verbose = (script_invocation ++ pm :: flags)%list.
Proof.
  unfold install_cmd, script_invocation.
  destruct debug, verbose; eexists; reflexivity.
Qed.

(** C10. For every registry of detected managers (any set of keys, the
    empty one too) [detect_best_package_manager] returns choco, winget or
    scoop, and never the sentinel auto; hence when the choice is auto the
    command line that [run_installation] gives to [Popen] carries, after
    -PackageManager, one of these three names. *)
Theorem auto_selection_is_a_known_manager (registry : dict string) :
  In (detect_best_package_manager registry) known_managers /\
  detect_best_package_manager registry <> "auto" /\
  forall (env : Env) (s : DevSetupGUI) (w : Widgets),
    package_managers s = registry ->
    widgets s = Some w ->
    pm_var w = "auto" ->
    exists flags,
      popen_calls (snd (run_installation env s)) =
      (popen_calls s ++
       [script_invocation ++ detect_best_package_manager registry :: flags])%list.
Proof.
  split; [apply detect_best_package_manager_known|].
  split.
  - pose proof (detect_best_package_manager_known registry) as H.
    unfold known_managers in H. cbn [In] in H.
    intros E. rewrite E in H.
    destruct H as [H|[H|[H|[]]]]; discriminate.
  - intros env s w Hreg Hw Hauto.
    destruct (run_installation_run env s w Hw) as (s' & Hrun & _ & _ & Hcalls).
    rewrite Hrun. cbn [snd]. rewrite Hcalls.
    unfold launch_cmd. rewrite Hauto, Hreg. cbn [String.eqb Ascii.eqb Bool.eqb].
    destruct (install_cmd_shape (detect_best_package_manager registry)
                                (debug_var w) (logging_var w)) as [flags Hf].
    exists flags. now rewrite Hf.
Qed.

Lemma auto_selection_is_a_known_manager_witness :
  In (detect_best_package_manager (package_managers Sample.busy)) known_managers /\
  detect_best_package_manager (package_managers Sample.busy) <> "auto" /\
  exists flags,
    popen_calls (snd (run_installation Sample.env Sample.busy)) =
    (popen_calls Sample.busy ++
     [script_invocation ++
      detect_best_package_manager (package_managers Sample.busy) :: flags])%list.
Proof.
  destruct (auto_selection_is_a_known_manager (package_managers Sample.busy))
    as (Hin & Hne & Hcmd).
  split; [exact Hin|]. split; [exact Hne|].
  apply (Hcmd Sample.env Sample.busy Sample.busy_widgets); reflexivity.
Defined.

(** ** Probing the package managers *)

(** One probe records its manager exactly when the probe succeeds, and
    never raises. *)
Lemma probe_run (env : Env) (name : string) (s : DevSetupGUI) :
  probe env name s =
  (Ret tt,
   if probe_succeeds env name
   then set_package_managers
          (dict_set name (probe_version env name) (package_managers s)) s
   else s).
Proof.
  unfold probe, try_except, bind, run, lift, probe_succeeds, probe_version.
  destruct (subprocess_run env [name; "--version"]) as [result|e].
  - destruct (returncode result =? 0)%Z; reflexivity.
  - reflexivity.
Qed.

(** The registry [auto_detect_package_managers] builds. *)
Lemma auto_detect_package_managers_registry (env : Env) (s : DevSetupGUI) :
  package_managers (snd (auto_detect_package_managers env s)) =
  let after (name : string) (registry : dict string) :=
    if probe_succeeds env name
    then dict_set name (probe_version env name) registry
    else registry in
  after "winget" (after "scoop" (after "choco" [])).
Proof.
  unfold auto_detect_package_managers.
  unfold bind at 1. unfold modify at 1.
  unfold bind at 1. rewrite probe_run.
  unfold bind at 1. rewrite probe_run.
  unfold bind at 1. rewrite probe_run.
  unfold bind, gets, widget_do.
  destruct (probe_succeeds env "choco"), (probe_succeeds env "scoop"),
    (probe_succeeds env "winget"), s as [? ? ? ? ? [w|] ? ? ?]; reflexivity.
Qed.

Lemma auto_detect_package_managers_returns (env : Env) (s : DevSetupGUI) (w : Widgets) :
  widgets s = Some w ->
  fst (auto_detect_package_managers env s) = Ret tt.
Proof.
  intros H.
  unfold auto_detect_package_managers.
  unfold bind at 1. unfold modify at 1.
  unfold bind at 1. rewrite probe_run.
  unfold bind at 1. rewrite probe_run.
  unfold bind at 1. rewrite probe_run.
  unfold bind, gets, widget_do.
  destruct s; cbn [widgets] in H; subst.
  destruct (probe_succeeds env "choco"), (probe_succeeds env "scoop"),
    (probe_succeeds env "winget"); reflexivity.
Qed.

(** C7. After [auto_detect_package_managers], each of the three known
    managers is a key of the registry exactly when its own version probe
    ran and exited with 0: a manager whose probe raised (executable not
    found, timeout) or exited with another code is absent, and that
    failure neither stops the detection (it returns normally on the
    constructed GUI) nor changes what is recorded for the other two. *)
Theorem auto_detect_omits_failed_probes (env : Env) (s : DevSetupGUI) :
  Forall (fun name =>
            dict_mem name (package_managers (snd (auto_detect_package_managers env s)))
            = probe_succeeds env name)
         known_managers /\
  forall w, widgets s = Some w -> fst (auto_detect_package_managers env s) = Ret tt.
Proof.
  split.
  - rewrite auto_detect_package_managers_registry. cbv zeta.
    unfold known_managers.
    repeat apply Forall_cons; try apply Forall_nil;
      destruct (probe_succeeds env "choco"), (probe_succeeds env "scoop"),
        (probe_succeeds env "winget"); reflexivity.
  - apply auto_detect_package_managers_returns.
Qed.

Lemma auto_detect_omits_failed_probes_witness :
  probe_succeeds Sample.env "scoop" = false /\
  probe_succeeds Sample.env "winget" = false /\
  Forall (fun name =>
            dict_mem name
              (package_managers (snd (auto_detect_package_managers Sample.env Sample.busy)))
            = probe_succeeds Sample.env name)
         known_managers /\
  fst (auto_detect_package_managers Sample.env Sample.busy) = Ret tt.
Proof.
  destruct (auto_detect_omits_failed_probes Sample.env Sample.busy) as (Hreg & Hret).
  split; [reflexivity|]. split; [reflexivity|]. split; [exact Hreg|].
  apply (Hret Sample.busy_widgets). reflexivity.
Defined.

(** ** Loading the configuration *)

(** Without a file [load_config] leaves the empty mapping. *)
Lemma load_config_missing (env : Env) (s : DevSetupGUI) :
  config_json env = NoFile ->
  load_config env s = (Ret tt, set_config (JObj []) s).
Proof.
  intros H. unfold load_config, config_exists. now rewrite H.
Qed.

(** Once the widgets exist, a file that fails to load is logged and the
    configuration is the empty mapping. *)
Lemma load_config_malformed_with_widgets
      (env : Env) (e : exn) (s : DevSetupGUI) (w : Widgets) :
  config_json env = LoadRaises e ->
  widgets s = Some w ->
  exists s',
    load_config env s = (Ret tt, s') /\ config s' = JObj [].
Proof.
  intros H Hw.
  unfold load_config, config_exists, try_except, open_and_load. rewrite H.
  unfold bind at 1. unfold raise at 1.
  unfold bind. rewrite (log_message_run env _ s w Hw).
  eexists. split; reflexivity.
Qed.

(** At start-up the widgets do not exist yet: the handler of [load_config]
    fails in [log_message], and the exception leaves [load_config]. *)
Lemma load_config_malformed_before_widgets (env : Env) (e : exn) (s : DevSetupGUI) :
  config_json env = LoadRaises e ->
  widgets s = None ->
  fst (load_config env s) = Raise (AttributeError "DevSetupGUI" "log_text").
Proof.
  intros H Hw.
  unfold load_config, config_exists, try_except, open_and_load. rewrite H.
  unfold bind at 1. unfold raise at 1.
  unfold bind. rewrite (log_message_without_widgets env _ s Hw).
  reflexivity.
Qed.

Lemma init_malformed_raises (env : Env) (e : exn) :
  config_json env = LoadRaises e ->
  fst (__init__ env) = Raise (AttributeError "DevSetupGUI" "log_text").
Proof.
  intros H. unfold __init__.
  pose proof (load_config_malformed_before_widgets env e state_variables H eq_refl) as E.
  unfold bind at 1.
  destruct (load_config env state_variables) as [[[]|e'] s']; cbn [fst] in *.
  - discriminate.
  - exact E.
Qed.

Lemma init_missing_config (env : Env) :
  config_json env = NoFile ->
  exists s', __init__ env = (Ret tt, s') /\ config s' = JObj [].
Proof.
  intros H. unfold __init__.
  unfold bind at 1. rewrite (load_config_missing env _ H).
  unfold bind at 1. unfold configure_styles at 1. unfold ret at 1.
  unfold bind at 1. unfold create_widgets at 1. unfold modify at 1.
  pose proof (auto_detect_package_managers_returns env
                (set_widgets (Some created_widgets)
                             (set_config (JObj []) state_variables))
                created_widgets eq_refl) as Hret.
  unfold bind at 1.
  destruct (auto_detect_package_managers env _) as [[[]|e] s1] eqn:E;
    cbn [fst] in Hret; [|discriminate].
  assert (Hcfg : config s1 = JObj []).
  { clear Hret. revert E.
    unfold auto_detect_package_managers.
    unfold bind at 1. unfold modify at 1.
    unfold bind at 1. rewrite probe_run.
    unfold bind at 1. rewrite probe_run.
    unfold bind at 1. rewrite probe_run.
    unfold bind, gets, widget_do.
    destruct (probe_succeeds env "choco"), (probe_succeeds env "scoop"),
      (probe_succeeds env "winget"); cbn; intros E; injection E as <-; reflexivity. }
  unfold load_available_stacks, bind, gets, lift. rewrite Hcfg. cbn.
  exists s1. split; [reflexivity|exact Hcfg].
Qed.

(** C1 fails on the code for a corrupt file: at start-up, with a
    [config.json] that [json.load] rejects, [load_config] catches the
    error, calls [log_message] before any widget exists, and the
    [AttributeError] on [self.log_text] leaves [load_config] and
    [__init__]; the log already holds the error line.  With no file the
    same start-up completes with the empty mapping. *)
Theorem load_config_corrupt_file_aborts_startup :
  load_config Sample.env_malformed state_variables =
    (Raise (AttributeError "DevSetupGUI" "log_text"),
     set_installation_log
       ["[01:02:05] Error loading config: Expecting value: line 1 column 1 (char 0)" ++ nl]
       (set_now_calls 1 state_variables)) /\
  fst (__init__ Sample.env_malformed) = Raise (AttributeError "DevSetupGUI" "log_text") /\
  fst (__init__ Sample.env) = Ret tt /\
  config (snd (__init__ Sample.env)) = JObj [].
Proof.
  split; [reflexivity|]. split.
  - exact (init_malformed_raises Sample.env_malformed Sample.decode_error eq_refl).
  - split; reflexivity.
Qed.

(** ** Invariants of the log across the methods *)

Lemma keeps_ret {A} (a : A) : keeps_view (ret a).
Proof. intros s. reflexivity. Qed.

Lemma keeps_raise {A} (e : exn) : keeps_view (@raise A e).
Proof. intros s. reflexivity. Qed.

Lemma keeps_lift {A} (o : outcome A) : keeps_view (lift o).
Proof. intros s. reflexivity. Qed.

Lemma keeps_gets {A} (f : DevSetupGUI -> A) : keeps_view (gets f).
Proof. intros s. reflexivity. Qed.

Lemma keeps_widget_get {A} (attr : string) (proj : Widgets -> A) :
  keeps_view (widget_get attr proj).
Proof. intros s. unfold widget_get. destruct (widgets s); reflexivity. Qed.

Lemma keeps_widget_do (attr : string) (f : Widgets -> Widgets) :
  (forall w, log_text (f w) = log_text w) ->
  keeps_view (widget_do attr f).
Proof.
  intros Hf s. unfold widget_do, log_view.
  destruct (widgets s) as [w|] eqn:E; cbn [snd]; [|now rewrite E].
  cbn [set_widgets installation_log widgets option_map]. now rewrite Hf.
Qed.

Lemma keeps_modify (f : DevSetupGUI -> DevSetupGUI) :
  (forall s, log_view (f s) = log_view s) -> keeps_view (modify f).
Proof. intros Hf s. apply Hf. Qed.

Lemma keeps_Popen (env : Env) (cmd : list string) : keeps_view (Popen env cmd).
Proof.
  intros s. unfold Popen. destruct (subprocess_Popen env cmd); reflexivity.
Qed.

Lemma keeps_bind {A B} (m : M A) (k : A -> M B) :
  keeps_view m -> (forall a, keeps_view (k a)) -> keeps_view (bind m k).
Proof.
  intros Hm Hk s. unfold bind. specialize (Hm s).
  destruct (m s) as [[a|e] s']; cbn [snd] in *.
  - now rewrite Hk.
  - exact Hm.
Qed.

Lemma keeps_try_except {A} (body : M A) (handler : exn -> M A) :
  keeps_view body -> (forall e, keeps_view (handler e)) ->
  keeps_view (try_except body handler).
Proof.
  intros Hm Hk s. unfold try_except. specialize (Hm s).
  destruct (body s) as [[a|e] s']; cbn [snd] in *.
  - exact Hm.
  - now rewrite Hk.
Qed.

Lemma keeps_for_each {A} (l : list A) (body : A -> M unit) :
  (forall x, keeps_view (body x)) -> keeps_view (for_each l body).
Proof.
  intros H. induction l as [|x r IH]; cbn [for_each].
  - apply keeps_ret.
  - apply keeps_bind; [apply H|intros _; exact IH].
Qed.

Section LogInvariant.

Variable I : DevSetupGUI -> Prop.
Hypothesis I_view : depends_on_view I.
Hypothesis I_log : forall env message, preserves I (log_message env message).

Lemma preserves_keeps {A} (m : M A) : keeps_view m -> preserves I m.
Proof. intros H s Hs. exact (I_view s _ (H s) Hs). Qed.

Lemma preserves_bind {A B} (m : M A) (k : A -> M B) :
  preserves I m -> (forall a, preserves I (k a)) -> preserves I (bind m k).
Proof.
  intros Hm Hk s Hs. unfold bind. specialize (Hm s Hs).
  destruct (m s) as [[a|e] s']; cbn [snd] in *.
  - now apply Hk.
  - exact Hm.
Qed.

Lemma preserves_try_except {A} (body : M A) (handler : exn -> M A) :
  preserves I body -> (forall e, preserves I (handler e)) ->
  preserves I (try_except body handler).
Proof.
  intros Hm Hk s Hs. unfold try_except. specialize (Hm s Hs).
  destruct (body s) as [[a|e] s']; cbn [snd] in *.
  - exact Hm.
  - now apply Hk.
Qed.

Lemma preserves_try_finally {A} (body : M A) (fin : M unit) :
  preserves I body -> preserves I fin -> preserves I (try_finally body fin).
Proof.
  intros Hm Hf s Hs. unfold try_finally. specialize (Hm s Hs).
  destruct (body s) as [r s']; cbn [snd] in *.
  specialize (Hf s' Hm).
  destruct (fin s') as [[[]|e] s'']; exact Hf.
Qed.

Lemma preserves_for_each {A} (l : list A) (body : A -> M unit) :
  (forall x, preserves I (body x)) -> preserves I (for_each l body).
Proof.
  intros H. induction l as [|x r IH]; cbn [for_each].
  - apply preserves_keeps, keeps_ret.
  - apply preserves_bind; [apply H|intros _; exact IH].
Qed.

Ltac keeps :=
  repeat first
    [ apply keeps_ret | apply keeps_raise | apply keeps_lift | apply keeps_gets
    | apply keeps_widget_get | apply keeps_Popen
    | apply keeps_widget_do; intros []; reflexivity
    | apply keeps_modify; intros []; reflexivity
    | apply keeps_bind; [|intros ?]
    | apply keeps_try_except; [|intros ?]
    | apply keeps_for_each; intros ?
    | match goal with
      | |- keeps_view (if ?b then _ else _) => destruct b
      | |- keeps_view (match ?x with _ => _ end) => destruct x
      end ].

Ltac pres :=
  repeat first
    [ apply I_log
    | apply preserves_bind; [|intros ?]
    | apply preserves_try_except; [|intros ?]
    | apply preserves_try_finally
    | apply preserves_for_each; intros ?
    | match goal with
      | |- preserves _ (if ?b then _ else _) => destruct b
      | |- preserves _ (match ?x with _ => _ end) => destruct x
      end
    | apply preserves_keeps; solve [keeps] ].

Lemma preserves_update_status (status : string) : preserves I (update_status status).
Proof. unfold update_status. pres. Qed.

Lemma preserves_start_installation : preserves I start_installation.
Proof. unfold start_installation. pres. Qed.

Lemma preserves_run_installation (env : Env) : preserves I (run_installation env).
Proof.
  unfold run_installation, for_stdout, wait, update_idletasks.
  pose proof preserves_update_status as Hu. unfold update_status in Hu.
  pres.
Qed.

Lemma preserves_auto_detect_package_managers (env : Env) :
  preserves I (auto_detect_package_managers env).
Proof. unfold auto_detect_package_managers, probe, run. pres. Qed.

Lemma preserves_load_available_stacks : preserves I load_available_stacks.
Proof. unfold load_available_stacks. pres. Qed.

Lemma preserves_show_stack_details (stack_name : string) (stack_config : json) :
  preserves I (show_stack_details stack_name stack_config).
Proof. unfold show_stack_details. pres. Qed.

Lemma preserves_on_stack_select (selection : list nat) :
  preserves I (on_stack_select selection).
Proof.
  unfold on_stack_select.
  pose proof preserves_show_stack_details as Hs.
  apply preserves_bind; [pres|intros names].
  destruct selection as [|i r]; [pres|].
  apply preserves_bind; [pres|intros stacks].
  apply preserves_bind; [pres|intros [|]]; [|pres].
  apply preserves_bind; [pres|intros cfg].
  apply preserves_bind; [apply Hs|intros d]. pres.
Qed.

Lemma preserves_save_log (env : Env) (filename : string) (io : save_io)
      (files : dict string) :
  preserves I (fun s => fst (save_log env filename io files s)).
Proof.
  intros s Hs. unfold save_log.
  destruct (negb (filename =? "")); [|exact Hs].
  destruct io; cbn [fst snd]; [exact Hs|exact Hs|].
  now apply I_log.
Qed.

(** Every action other than refreshing the display and clearing the log
    keeps the invariant. *)
Lemma preserves_perform (env : Env) (a : action) :
  preserves I refresh_log ->
  (clears a = true -> preserves I (clear_log env true)) ->
  preserves I (perform env a).
Proof.
  intros Hrefresh Hclear.
  destruct a as [name| | | | |c|sel| |f o fs|c]; cbn [perform].
  - unfold setup_stack. apply I_log.
  - unfold show_custom_setup. apply preserves_keeps, keeps_ret.
  - apply preserves_start_installation.
  - apply preserves_run_installation.
  - unfold dry_run. apply I_log.
  - unfold reset_setup.
    destruct c; [apply I_log|apply preserves_keeps, keeps_ret].
  - apply preserves_bind; [apply preserves_on_stack_select|intros _].
    apply preserves_keeps, keeps_ret.
  - exact Hrefresh.
  - apply preserves_save_log.
  - destruct c; [exact (Hclear eq_refl)|].
    unfold clear_log. apply preserves_keeps, keeps_ret.
Qed.

Lemma preserves_session (steps : list (Env * action)) :
  (forall env a, In (env, a) steps -> preserves I (perform env a)) ->
  forall s, I s -> I (session steps s).
Proof.
  unfold session.
  induction steps as [|[env a] r IH]; intros H s Hs; cbn [fold_left fst snd].
  - exact Hs.
  - apply IH.
    + intros env' a' Hin. apply H. now right.
    + apply (H env a); [now left|exact Hs].
Qed.

End LogInvariant.

(** ** The log and its display *)

Lemma refresh_log_run (s : DevSetupGUI) (w : Widgets) :
  widgets s = Some w ->
  refresh_log s =
  (Ret tt, set_widgets (Some (set_log_text (text_of (installation_log s)) w)) s).
Proof.
  intros H.
  unfold refresh_log. unfold bind at 1. unfold widget_do at 1. rewrite H.
  unfold bind, gets.
  match goal with
  | |- for_each _ _ ?s1 = _ => rewrite (for_each_insert _ s1 _ eq_refl)
  end.
  destruct s, w; reflexivity.
Qed.

Lemma refresh_log_keeps_log (s : DevSetupGUI) :
  installation_log (snd (refresh_log s)) = installation_log s.
Proof.
  destruct (widgets s) as [w|] eqn:H.
  - now rewrite (refresh_log_run s w H).
  - unfold refresh_log, bind, widget_do. now rewrite H.
Qed.

Lemma clear_log_run (env : Env) (s : DevSetupGUI) (w : Widgets) :
  widgets s = Some w ->
  clear_log env true s =
  (Ret tt,
   mk_gui (is_installing s) [log_entry env (now_calls s) "Log cleared"]
          (config s) (package_managers s) (available_stacks s)
          (Some (set_log_text (log_entry env (now_calls s) "Log cleared") w))
          (S (now_calls s)) (threads_started s) (popen_calls s)).
Proof.
  intros H.
  unfold clear_log. unfold bind at 1. unfold modify at 1.
  unfold bind at 1. unfold widget_do at 1.
  cbn [widgets set_installation_log]. rewrite H.
  match goal with
  | |- log_message env ?m ?s1 = _ => rewrite (log_message_run env m s1 _ eq_refl)
  end.
  destruct w; reflexivity.
Qed.

Lemma consistent_view : depends_on_view consistent.
Proof.
  intros s s' Hv (w & Hw & Htext & Hts).
  unfold log_view in Hv. injection Hv as Hlog Hdisp.
  rewrite Hw in Hdisp. cbn [option_map] in Hdisp.
  destruct (widgets s') as [w'|] eqn:Hw'; [|discriminate].
  cbn [option_map] in Hdisp. injection Hdisp as Hdisp.
  exists w'. rewrite Hlog, Hdisp. auto.
Qed.

Lemma consistent_log_message (env : Env) (message : string) :
  preserves consistent (log_message env message).
Proof.
  intros s (w & Hw & Htext & Hts).
  rewrite (log_message_run env message s w Hw). cbn [snd].
  eexists. split; [reflexivity|].
  cbn [installation_log]. split.
  - unfold set_log_text. cbn [log_text].
    rewrite text_of_app, Htext. f_equal. symmetry. apply append_empty_r.
  - apply Forall_app. split; [exact Hts|].
    constructor; [apply log_entry_timestamped|constructor].
Qed.

Lemma consistent_refresh_log : preserves consistent refresh_log.
Proof.
  intros s (w & Hw & Htext & Hts).
  rewrite (refresh_log_run s w Hw). cbn [snd].
  eexists. split; [reflexivity|]. split; [reflexivity|exact Hts].
Qed.

Lemma consistent_clear_log (env : Env) : preserves consistent (clear_log env true).
Proof.
  intros s (w & Hw & Htext & Hts).
  rewrite (clear_log_run env s w Hw). cbn [snd].
  eexists. split; [reflexivity|]. cbn [installation_log]. split.
  - unfold set_log_text, text_of. cbn [log_text fold_right].
    now rewrite append_empty_r.
  - constructor; [apply log_entry_timestamped|constructor].
Qed.

Lemma consistent_perform (env : Env) (a : action) :
  preserves consistent (perform env a).
Proof.
  apply preserves_perform.
  - exact consistent_view.
  - exact consistent_log_message.
  - exact consistent_refresh_log.
  - intros _. apply consistent_clear_log.
Qed.

Lemma log_extends_view (l : list string) : depends_on_view (log_extends l).
Proof.
  intros s s' Hv (more & Hlog).
  unfold log_view in Hv. injection Hv as Hl _.
  exists more. now rewrite Hl.
Qed.

Lemma log_extends_log_message (l : list string) (env : Env) (message : string) :
  preserves (log_extends l) (log_message env message).
Proof.
  intros s (more & Hlog).
  destruct (log_message_log env message s) as [E _].
  exists (more ++ [log_entry env (now_calls s) message])%list.
  now rewrite E, Hlog, app_assoc.
Qed.

Lemma log_extends_refresh_log (l : list string) : preserves (log_extends l) refresh_log.
Proof.
  intros s (more & Hlog). exists more. now rewrite refresh_log_keeps_log.
Qed.

(** ** Each action on the constructed GUI *)

Lemma start_installation_run (s : DevSetupGUI) (w : Widgets) :
  widgets s = Some w ->
  is_installing s = false ->
  start_installation s =
  (Ret tt,
   mk_gui true (installation_log s) (config s) (package_managers s)
          (available_stacks s)
          (Some (set_progress_running true
                   (set_progress_packed true (set_install_btn "disabled" w))))
          (now_calls s) (S (threads_started s)) (popen_calls s)).
Proof.
  intros H Hidle.
  unfold start_installation, bind, gets, modify, widget_do.
  rewrite Hidle. cbn [widgets set_is_installing set_widgets]. rewrite H.
  reflexivity.
Qed.

Lemma perform_returns (env : Env) (a : action) (s : DevSetupGUI) (w : Widgets) :
  widgets s = Some w ->
  may_raise a = false ->
  fst (perform env a s) = Ret tt.
Proof.
  intros H Hok.
  destruct a as [name| | | | |c|sel| |f o fs|c]; cbn [perform].
  - unfold setup_stack. now rewrite (log_message_run env _ s w H).
  - reflexivity.
  - destruct (is_installing s) eqn:E.
    + unfold start_installation, bind, gets. now rewrite E.
    + now rewrite (start_installation_run s w H E).
  - destruct (run_installation_run env s w H) as (s' & -> & _). reflexivity.
  - unfold dry_run. now rewrite (log_message_run env _ s w H).
  - unfold reset_setup. destruct c; [|reflexivity].
    now rewrite (log_message_run env _ s w H).
  - destruct sel as [|i r]; [|discriminate].
    unfold on_stack_select, bind, widget_get. now rewrite H.
  - now rewrite (refresh_log_run s w H).
  - unfold save_log. cbn [may_raise] in Hok.
    destruct o as [e|e partial|]; try (rewrite Hok; reflexivity).
    destruct (negb (f =? "")); [|reflexivity].
    cbn [fst]. now rewrite (log_message_run env _ s w H).
  - destruct c; [|reflexivity].
    now rewrite (clear_log_run env s w H).
Qed.

(** ** Dictionaries *)

Lemma dict_get_mem {V} (k : string) (d : dict V) :
  dict_mem k d = match dict_get k d with Some _ => true | None => false end.
Proof.
  induction d as [|[k' v] r IH]; cbn [dict_mem dict_get].
  - reflexivity.
  - destruct (k =? k'); [reflexivity|exact IH].
Qed.


Lemma dict_get_set_other {V} (k k' : string) (v : V) (d : dict V) :
  k' <> k -> dict_get k' (dict_set k v d) = dict_get k' d.
Proof.
  intros Hne.
  induction d as [|[k0 v0] r IH]; cbn [dict_set dict_get].
  - now apply String.eqb_neq in Hne as ->.
  - destruct (k =? k0) eqn:E; cbn [dict_get].
    + apply String.eqb_eq in E. subst k0.
      now apply String.eqb_neq in Hne as ->.
    + now rewrite IH.
Qed.

(** In a dictionary whose keys are distinct every item is found under its
    key. *)
Lemma dict_get_item {V} (k : string) (v : V) (d : dict V) :
  NoDup (map fst d) -> In (k, v) d -> dict_get k d = Some v.
Proof.
  induction d as [|[k' v'] r IH]; intros Hnd Hin; [contradiction|].
  cbn [map fst] in Hnd. inversion Hnd as [|? ? Hnotin Hnd']; subst.
  cbn [dict_get]. destruct Hin as [E|Hin].
  - injection E as -> ->. now rewrite String.eqb_refl.
  - destruct (String.eqb_spec k k') as [->|_].
    + exfalso. apply Hnotin. now apply (in_map fst) in Hin.
    + now apply IH.
Qed.

(** ** Stacks *)

Lemma py_join_strings (sep : string) (l : list string) :
  py_join sep (json_strings l) = Ret (join sep l).
Proof.
  unfold py_join, json_strings.
  assert (Hnone : forall i, first_non_str (map JStr l) i = None).
  { induction l as [|x r IH]; intros i; cbn; [reflexivity|apply IH]. }
  assert (Hitems : str_items (map JStr l) = l).
  { clear Hnone. induction l as [|x r IH]; cbn; [reflexivity|]. now rewrite IH. }
  now rewrite Hnone, Hitems.
Qed.

Lemma stack_json_enabled (st : Stack) : enabled_entry (stack_json st) = listed st.
Proof.
  destruct st as [[p|] [py|] [vs|] [[|]|]]; reflexivity.
Qed.

(** The loop of [load_available_stacks] over well-formed entries. *)
Lemma for_each_list_stacks (items : dict json) :
  Forall (fun item => is_object (snd item) = true) items ->
  forall (s : DevSetupGUI) (w : Widgets),
    widgets s = Some w ->
    for_each items (fun item =>
      enabled <- lift (py_get (snd item) "enabled" (JBool true)) ;;
      if truthy enabled then
        widget_do "stack_listbox"
                  (fun w => set_stack_listbox (stack_listbox w ++ [fst item]) w)
      else ret tt) s =
    (Ret tt,
     set_widgets
       (Some (set_stack_listbox
                (stack_listbox w ++
                 map fst (filter (fun item => enabled_entry (snd item)) items)) w)) s).
Proof.
  induction 1 as [|[name v] r Hv Hr IH]; intros s w H.
  - destruct s, w; simpl in *; subst.
    unfold ret, set_widgets, set_stack_listbox; simpl. now rewrite app_nil_r.
  - cbn [for_each fst snd filter] in *.
    destruct v as [| | | | |d]; try discriminate.
    unfold bind at 1. unfold bind at 1. unfold lift at 1. cbn [py_get enabled_entry].
    destruct (truthy match dict_get "enabled" d with Some x => x | None => JBool true end)
      eqn:Et.
    + assert (Et' : match dict_get "enabled" d with Some x => truthy x | None => true end = true)
        by (destruct (dict_get "enabled" d); exact Et).
      rewrite Et'. unfold widget_do at 1. rewrite H.
      match goal with
      | |- for_each _ _ ?s1 = _ => rewrite (IH s1 _ eq_refl)
      end.
      unfold set_widgets, set_stack_listbox.
      cbn [is_installing installation_log config package_managers available_stacks
           now_calls threads_started popen_calls map fst
           status_label progress_packed progress_running pm_var install_btn
           stack_listbox debug_var logging_var log_text status_text pm_status].
      now rewrite <- app_assoc.
    + assert (Et' : match dict_get "enabled" d with Some x => truthy x | None => true end = false)
        by (destruct (dict_get "enabled" d); exact Et).
      rewrite Et'. unfold ret at 1. apply (IH s w H).
Qed.

Lemma for_each_app {A} (l1 l2 : list A) (body : A -> M unit) (s : DevSetupGUI) :
  for_each (l1 ++ l2) body s = (for_each l1 body ;; for_each l2 body) s.
Proof.
  revert s. induction l1 as [|x r IH]; intros s; cbn [for_each app].
  - reflexivity.
  - rewrite bind_assoc. unfold bind.
    destruct (body x s) as [[[]|e] s1]; [|reflexivity].
    specialize (IH s1). unfold bind in IH. exact IH.
Qed.

Lemma load_available_stacks_run
        (s : DevSetupGUI) (w : Widgets) (cfg items : dict json) :
  widgets s = Some w ->
  config s = JObj cfg ->
  dict_get "stacks" cfg = Some (JObj items) ->
  Forall (fun item => is_object (snd item) = true) items ->
  load_available_stacks s =
  (Ret tt,
   set_widgets
     (Some (set_stack_listbox
              (stack_listbox w ++
               map fst (filter (fun item => enabled_entry (snd item)) items)) w))
     (set_available_stacks (JObj items) s)).
Proof.
  intros Hw Hcfg Hstacks Hitems.
  unfold load_available_stacks. unfold bind at 1. unfold gets at 1.
  rewrite Hcfg. unfold bind at 1. unfold lift at 1. cbn [py_in].
  rewrite dict_get_mem, Hstacks.
  unfold bind at 1. unfold lift at 1. cbn [py_getitem]. rewrite Hstacks.
  unfold bind at 1. unfold modify at 1.
  unfold bind at 1. unfold lift at 1. cbn [py_items].
  apply (for_each_list_stacks items Hitems). exact Hw.
Qed.

(** X1. When the configuration is an object whose "stacks" is an object
    and every stack in it is an object, [load_available_stacks] (on the
    constructed GUI) returns normally, keeps that object as
    [available_stacks] and appends to the list box, in configuration order,
    the names of exactly the stacks whose "enabled" is absent or truthy;
    nothing else changes. *)
Theorem load_available_stacks_lists_enabled
        (s : DevSetupGUI) (w : Widgets) (cfg items : dict json) :
  widgets s = Some w ->
  config s = JObj cfg ->
  dict_get "stacks" cfg = Some (JObj items) ->
  Forall (fun item => is_object (snd item) = true) items ->
  load_available_stacks s =
  (Ret tt,
   set_widgets
     (Some (set_stack_listbox
              (stack_listbox w ++
               map fst (filter (fun item => enabled_entry (snd item)) items)) w))
     (set_available_stacks (JObj items) s)).
Proof. exact (load_available_stacks_run s w cfg items). Qed.

Lemma load_available_stacks_lists_enabled_witness :
  widgets Demo.configured = Some Sample.ready_widgets /\
  load_available_stacks Demo.configured =
  (Ret tt,
   set_widgets (Some Demo.ready_widgets)
     (set_available_stacks (stacks_json Demo.stacks) Demo.configured)).
Proof.
  split; [reflexivity|].
  apply (load_available_stacks_lists_enabled
           Demo.configured Sample.ready_widgets
           [("stacks", stacks_json Demo.stacks)]
           (map (fun item => (fst item, stack_json (snd item))) Demo.stacks)).
  - reflexivity.
  - reflexivity.
  - reflexivity.
  - repeat constructor.
Defined.

(** X2. When a stack of the configuration is not an object,
    [load_available_stacks] raises the [AttributeError] of its missing
    [get]; by then [available_stacks] already holds the whole "stacks"
    object and the list box the enabled stacks that come before the
    malformed one, and none that come after. *)
Theorem load_available_stacks_stops_at_malformed
        (s : DevSetupGUI) (w : Widgets) (cfg before after : dict json)
        (name : string) (v : json) :
  widgets s = Some w ->
  config s = JObj cfg ->
  dict_get "stacks" cfg = Some (JObj (before ++ (name, v) :: after)%list) ->
  Forall (fun item => is_object (snd item) = true) before ->
  is_object v = false ->
  load_available_stacks s =
  (Raise (AttributeError (type_name v) "get"),
   set_widgets
     (Some (set_stack_listbox
              (stack_listbox w ++
               map fst (filter (fun item => enabled_entry (snd item)) before)) w))
     (set_available_stacks (JObj (before ++ (name, v) :: after)%list) s)).
Proof.
  intros Hw Hcfg Hstacks Hitems Hv.
  unfold load_available_stacks. unfold bind at 1. unfold gets at 1.
  rewrite Hcfg. unfold bind at 1. unfold lift at 1. cbn [py_in].
  rewrite dict_get_mem, Hstacks.
  unfold bind at 1. unfold lift at 1. cbn [py_getitem]. rewrite Hstacks.
  unfold bind at 1. unfold modify at 1.
  unfold bind at 1. unfold lift at 1. cbn [py_items].
  rewrite for_each_app. unfold bind at 1.
  rewrite (for_each_list_stacks before Hitems (set_available_stacks _ s) w Hw).
  cbn [for_each fst snd]. unfold bind at 1. unfold bind at 1. unfold lift at 1.
  destruct v; try discriminate; reflexivity.
Qed.

Lemma load_available_stacks_stops_at_malformed_witness :
  widgets Demo.damaged = Some Sample.ready_widgets /\
  load_available_stacks Demo.damaged =
  (Raise (AttributeError "list" "get"),
   set_widgets
     (Some (set_stack_listbox ["web-dev"] Sample.ready_widgets))
     (set_available_stacks (JObj Demo.damaged_items) Demo.damaged)).
Proof.
  split; [reflexivity|].
  apply (load_available_stacks_stops_at_malformed
           Demo.damaged Sample.ready_widgets
           [("stacks", JObj Demo.damaged_items)]
           [("web-dev", stack_json Demo.web)]
           [("data-science", stack_json Demo.data)]
           "broken" (JArr [JStr "git"])).
  - reflexivity.
  - reflexivity.
  - reflexivity.
  - repeat constructor.
  - reflexivity.
Defined.

(** ** Stack details *)

Lemma stack_json_packages (st : Stack) :
  py_get (stack_json st) "packages" (JArr []) =
  Ret (json_strings (match stack_packages st with Some l => l | None => [] end)).
Proof. destruct st as [[p|] [py|] [vs|] [e|]]; reflexivity. Qed.

Lemma stack_json_has_python (st : Stack) :
  py_in "pythonPackages" (stack_json st) =
  Ret (match stack_python st with Some _ => true | None => false end).
Proof. destruct st as [[p|] [py|] [vs|] [e|]]; reflexivity. Qed.

Lemma stack_json_python (st : Stack) (l : list string) :
  stack_python st = Some l ->
  py_getitem (stack_json st) "pythonPackages" = Ret (json_strings l).
Proof.
  destruct st as [[p|] [py|] [vs|] [e|]]; cbn [stack_python]; intros E;
    try discriminate; injection E as ->; reflexivity.
Qed.

Lemma stack_json_has_vscode (st : Stack) :
  py_in "vscodeExtensions" (stack_json st) =
  Ret (match stack_vscode st with Some _ => true | None => false end).
Proof. destruct st as [[p|] [py|] [vs|] [e|]]; reflexivity. Qed.

Lemma stack_json_vscode (st : Stack) (l : list string) :
  stack_vscode st = Some l ->
  py_getitem (stack_json st) "vscodeExtensions" = Ret (json_strings l).
Proof.
  destruct st as [[p|] [py|] [vs|] [e|]]; cbn [stack_vscode]; intros E;
    try discriminate; injection E as ->; reflexivity.
Qed.

Ltac lift_step lem :=
  erewrite bind_ret_run by (unfold lift; rewrite lem; reflexivity).

Lemma show_stack_details_run
        (stack_name : string) (st : Stack) (s : DevSetupGUI) (w : Widgets) :
  widgets s = Some w ->
  show_stack_details stack_name (stack_json st) s = (Ret (details_text stack_name st), s).
Proof.
  intros H.
  assert (Hid : forall a, widget_do a (fun w => w) s = (Ret tt, s)).
  { intros a. unfold widget_do. rewrite H. destruct s; cbn in *; now subst. }
  unfold show_stack_details, details_text.
  lift_step stack_json_packages.
  lift_step py_join_strings.
  lift_step stack_json_has_python.
  destruct (stack_python st) as [py|] eqn:Epy;
    destruct (stack_vscode st) as [vs|] eqn:Evs;
    rewrite ?bind_assoc;
    try (lift_step (stack_json_python st py Epy); rewrite bind_assoc;
         lift_step py_join_strings);
    (erewrite bind_ret_run by reflexivity);
    lift_step stack_json_has_vscode; rewrite Evs;
    rewrite ?bind_assoc;
    try (lift_step (stack_json_vscode st vs Evs); rewrite bind_assoc;
         lift_step py_join_strings);
    (erewrite bind_ret_run by reflexivity);
    (erewrite bind_ret_run by apply Hid);
    (erewrite bind_ret_run by apply Hid);
    unfold ret; f_equal; f_equal;
    unfold optional_section, section_text;
    rewrite ?append_assoc, ?append_empty_r; reflexivity.
Qed.

(** X3. For a stack as the configuration file describes it (lists of
    strings under "packages", "pythonPackages" and "vscodeExtensions", the
    last two optional), [show_stack_details] (on the constructed GUI) shows
    the name, then the packages joined by ", " (an empty line of packages
    when the key is missing), then a Python section and a VS Code section
    for the optional lists that are present, in that order, and changes
    nothing of the object. *)
Theorem show_stack_details_renders
        (stack_name : string) (st : Stack) (s : DevSetupGUI) (w : Widgets) :
  widgets s = Some w ->
  show_stack_details stack_name (stack_json st) s = (Ret (details_text stack_name st), s).
Proof. exact (show_stack_details_run stack_name st s w). Qed.

Lemma show_stack_details_renders_witness :
  widgets Sample.ready = Some Sample.ready_widgets /\
  show_stack_details "data-science" (stack_json Demo.data) Sample.ready =
  (Ret ("Stack: data-science" ++ nl ++ nl ++
        "Packages: python" ++ nl ++ nl ++
        "Python Packages: numpy, pandas" ++ nl ++ nl),
   Sample.ready).
Proof.
  split; [reflexivity|].
  apply (show_stack_details_renders "data-science" Demo.data Sample.ready
                                    Sample.ready_widgets).
  reflexivity.
Defined.

Lemma first_non_str_found (l : list json) :
  forallb is_string l = false ->
  forall i, exists j x, first_non_str l i = Some (j, x).
Proof.
  induction l as [|v r IH]; cbn [forallb]; intros H i; [discriminate|].
  destruct v; cbn [is_string andb] in H; cbn [first_non_str];
    try (now eexists; eexists).
  apply (IH H).
Qed.

(** X4. When the "packages" of a stack is a list with an item that is not
    a string, [show_stack_details] raises a [TypeError] before it touches
    the details widget, and the object is unchanged. *)
Theorem show_stack_details_rejects_non_string
        (stack_name : string) (cfg : dict json) (l : list json) (s : DevSetupGUI) :
  dict_get "packages" cfg = Some (JArr l) ->
  forallb is_string l = false ->
  exists msg,
    show_stack_details stack_name (JObj cfg) s = (Raise (TypeError msg), s).
Proof.
  intros Hp Hl.
  destruct (first_non_str_found l Hl 0) as (j & x & Hj).
  unfold show_stack_details.
  erewrite bind_ret_run by (unfold lift; cbn [py_get]; rewrite Hp; reflexivity).
  eexists.
  erewrite bind_raise_run by (unfold lift; cbn [py_join]; rewrite Hj; reflexivity).
  reflexivity.
Qed.

Lemma show_stack_details_rejects_non_string_witness :
  dict_get "packages" [("packages", JArr [JStr "git"; JNum 7])] =
    Some (JArr [JStr "git"; JNum 7]) /\
  forallb is_string [JStr "git"; JNum 7] = false /\
  exists msg,
    show_stack_details "web-dev" (JObj [("packages", JArr [JStr "git"; JNum 7])])
                       Sample.ready
    = (Raise (TypeError msg), Sample.ready).
Proof.
  split; [reflexivity|]. split; [reflexivity|].
  apply (show_stack_details_rejects_non_string
           "web-dev" [("packages", JArr [JStr "git"; JNum 7])]
           [JStr "git"; JNum 7] Sample.ready); reflexivity.
Defined.

Lemma stacks_json_lookup (stacks : list (string * Stack)) (name : string) (st : Stack) :
  NoDup (map fst stacks) ->
  In (name, st) stacks ->
  dict_get name (map (fun item => (fst item, stack_json (snd item))) stacks)
  = Some (stack_json st).
Proof.
  intros Hnd Hin. apply dict_get_item.
  - now rewrite map_map.
  - apply (in_map (fun item => (fst item, stack_json (snd item))) _ _ Hin).
Qed.

Lemma on_stack_select_run
      (stacks : list (string * Stack)) (name : string) (st : Stack)
      (i : nat) (rest : list nat) (s : DevSetupGUI) (w : Widgets) :
  widgets s = Some w ->
  available_stacks s = stacks_json stacks ->
  NoDup (map fst stacks) ->
  In (name, st) stacks ->
  nth i (stack_listbox w) "" = name ->
  on_stack_select (i :: rest) s = (Ret (Some (details_text name st)), s).
Proof.
  intros Hw Hs Hnd Hin Hsel.
  pose proof (stacks_json_lookup stacks name st Hnd Hin) as Hget.
  unfold on_stack_select.
  erewrite bind_ret_run by (apply widget_get_run; exact Hw).
  erewrite bind_ret_run by reflexivity.
  rewrite Hsel, Hs. unfold stacks_json.
  erewrite bind_ret_run
    by (unfold lift; cbn [py_in]; rewrite dict_get_mem, Hget; reflexivity).
  cbv beta iota.
  erewrite bind_ret_run
    by (unfold lift; cbn [py_getitem]; rewrite Hget; reflexivity).
  erewrite bind_ret_run by (apply (show_stack_details_run name st s w Hw)).
  reflexivity.
Qed.

(** X5. On the constructed GUI whose [available_stacks] are stacks as the
    configuration file describes them, with distinct names, selecting a
    list-box line that names one of them shows the details of that stack
    (only the first selected line counts); with nothing selected, nothing
    is shown. The object is unchanged either way. *)
Theorem on_stack_select_shows_selected
        (stacks : list (string * Stack)) (name : string) (st : Stack)
        (i : nat) (rest : list nat) (s : DevSetupGUI) (w : Widgets) :
  widgets s = Some w ->
  available_stacks s = stacks_json stacks ->
  NoDup (map fst stacks) ->
  In (name, st) stacks ->
  nth i (stack_listbox w) "" = name ->
  on_stack_select (i :: rest) s = (Ret (Some (details_text name st)), s) /\
  on_stack_select [] s = (Ret None, s).
Proof.
  intros Hw Hs Hnd Hin Hsel. split.
  - exact (on_stack_select_run stacks name st i rest s w Hw Hs Hnd Hin Hsel).
  - unfold on_stack_select, bind, widget_get. now rewrite Hw.
Qed.

(** ** Start-up *)

Lemma auto_detect_package_managers_run (env : Env) (s : DevSetupGUI) (w : Widgets) :
  widgets s = Some w ->
  auto_detect_package_managers env s =
  (Ret tt,
   set_widgets (Some (set_pm_status (pm_status_text (detected env)) w))
               (set_package_managers (detected env) s)).
Proof.
  intros H.
  unfold auto_detect_package_managers, detected, pm_status_text.
  unfold bind at 1. unfold modify at 1.
  unfold bind at 1. rewrite probe_run.
  unfold bind at 1. rewrite probe_run.
  unfold bind at 1. rewrite probe_run.
  unfold bind, gets, widget_do.
  destruct s; cbn [widgets] in H; subst.
  destruct (probe_succeeds env "choco"), (probe_succeeds env "scoop"),
    (probe_succeeds env "winget"); reflexivity.
Qed.

(** With a configuration that loads, [__init__] comes down to loading the
    stacks. *)
Lemma init_loaded (env : Env) (v : json) :
  config_json env = Loaded v ->
  __init__ env = load_available_stacks (probed env v).
Proof.
  intros H. unfold __init__.
  unfold bind at 1.
  unfold load_config, config_exists, try_except, open_and_load. rewrite H.
  unfold bind at 1. unfold ret at 1. unfold modify at 1.
  unfold bind at 1. unfold configure_styles at 1. unfold ret at 1.
  unfold bind at 1. unfold create_widgets at 1. unfold modify at 1.
  unfold bind at 1.
  match goal with
  | |- context [auto_detect_package_managers env ?s1] =>
      rewrite (auto_detect_package_managers_run env s1 created_widgets eq_refl)
  end.
  reflexivity.
Qed.

Lemma init_no_file (env : Env) :
  config_json env = NoFile ->
  __init__ env = (Ret tt, probed env (JObj [])).
Proof.
  intros H. unfold __init__.
  unfold bind at 1. rewrite (load_config_missing env _ H).
  unfold bind at 1. unfold configure_styles at 1. unfold ret at 1.
  unfold bind at 1. unfold create_widgets at 1. unfold modify at 1.
  unfold bind at 1.
  match goal with
  | |- context [auto_detect_package_managers env ?s1] =>
      rewrite (auto_detect_package_managers_run env s1 created_widgets eq_refl)
  end.
  reflexivity.
Qed.

Lemma listed_names_filter (stacks : list (string * Stack)) :
  map fst (filter (fun item => enabled_entry (snd item))
                  (map (fun item => (fst item, stack_json (snd item))) stacks))
  = listed_names stacks.
Proof.
  unfold listed_names.
  induction stacks as [|[name st] r IH]; cbn [map filter fst snd]; [reflexivity|].
  rewrite stack_json_enabled.
  destruct (listed st); cbn [map fst]; now rewrite IH.
Qed.

Lemma init_stacks (env : Env) (stacks : list (string * Stack)) :
  config_json env = Loaded (config_of stacks) ->
  __init__ env =
  (Ret tt,
   set_widgets
     (Some (set_stack_listbox
              (listed_names stacks)
              (set_pm_status (pm_status_text (detected env)) created_widgets)))
     (set_available_stacks (stacks_json stacks) (probed env (config_of stacks)))).
Proof.
  intros H. rewrite (init_loaded env _ H).
  rewrite (load_available_stacks_run
             (probed env (config_of stacks)) _
             [("stacks", stacks_json stacks)]
             (map (fun item => (fst item, stack_json (snd item))) stacks)
             eq_refl eq_refl eq_refl).
  - now rewrite listed_names_filter.
  - apply Forall_forall. intros [name v] Hin.
    apply in_map_iff in Hin. destruct Hin as ([n st] & E & _).
    injection E as _ <-. reflexivity.
Qed.




(** X7. After such a start-up, when the stacks have distinct names,
    selecting the i-th line of the list box shows the details of the i-th
    stack that is not disabled. *)
Theorem init_then_select_shows_listed_stack
        (env : Env) (stacks : list (string * Stack)) (name : string) (st : Stack)
        (i : nat) (rest : list nat) :
  config_json env = Loaded (config_of stacks) ->
  NoDup (map fst stacks) ->
  nth_error (filter (fun item => listed (snd item)) stacks) i = Some (name, st) ->
  on_stack_select (i :: rest) (snd (__init__ env)) =
  (Ret (Some (details_text name st)), snd (__init__ env)).
Proof.
  intros H Hnd Hi. rewrite (init_stacks env stacks H). cbn [snd].
  eapply on_stack_select_run.
  - reflexivity.
  - reflexivity.
  - exact Hnd.
  - apply nth_error_In in Hi. apply filter_In in Hi. exact (proj1 Hi).
  - unfold set_stack_listbox. cbn [stack_listbox]. unfold listed_names.
    apply (map_nth_error fst) in Hi. cbn [fst] in Hi.
    now apply nth_error_nth.
Qed.

Lemma init_then_select_shows_listed_stack_witness :
  config_json Demo.env = Loaded (config_of Demo.stacks) /\
  NoDup (map fst Demo.stacks) /\
  nth_error (filter (fun item => listed (snd item)) Demo.stacks) 1
    = Some ("data-science", Demo.data) /\
  on_stack_select [1] (snd (__init__ Demo.env)) =
  (Ret (Some (details_text "data-science" Demo.data)), snd (__init__ Demo.env)).
Proof.
  assert (Hnd : NoDup (map fst Demo.stacks)).
  { repeat constructor; cbn; intuition discriminate. }
  split; [reflexivity|]. split; [exact Hnd|]. split; [reflexivity|].
  apply (init_then_select_shows_listed_stack
           Demo.env Demo.stacks "data-science" Demo.data 1 []).
  - reflexivity.
  - exact Hnd.
  - reflexivity.
Defined.

Lemma on_stack_select_shows_selected_witness :
  widgets Demo.ready = Some Demo.ready_widgets /\
  available_stacks Demo.ready = stacks_json Demo.stacks /\
  NoDup (map fst Demo.stacks) /\
  In ("web-dev", Demo.web) Demo.stacks /\
  nth 0 (stack_listbox Demo.ready_widgets) "" = "web-dev" /\
  on_stack_select [0; 1] Demo.ready
    = (Ret (Some (details_text "web-dev" Demo.web)), Demo.ready) /\
  on_stack_select [] Demo.ready = (Ret None, Demo.ready).
Proof.
  assert (Hnd : NoDup (map fst Demo.stacks)).
  { repeat constructor; cbn; intuition discriminate. }
  split; [reflexivity|]. split; [reflexivity|]. split; [exact Hnd|].
  split; [now left|]. split; [reflexivity|].
  apply (on_stack_select_shows_selected
           Demo.stacks "web-dev" Demo.web 0 [1] Demo.ready Demo.ready_widgets).
  - reflexivity.
  - reflexivity.
  - exact Hnd.
  - now left.
  - reflexivity.
Defined.

(** A construction that returns left a consistent object. *)
Lemma init_consistent (env : Env) :
  fst (__init__ env) = Ret tt -> consistent (snd (__init__ env)).
Proof.
  intros Hret.
  assert (Hp : forall v, consistent (probed env v)).
  { intros v. eexists. split; [reflexivity|]. split; [reflexivity|constructor]. }
  destruct (config_json env) as [|e|v] eqn:H.
  - rewrite (init_no_file env H). apply Hp.
  - rewrite (init_malformed_raises env e H) in Hret. discriminate.
  - rewrite (init_loaded env v H).
    apply (preserves_load_available_stacks consistent consistent_view).
    apply Hp.
Qed.

(** ** Sessions *)

Lemma consistent_session (steps : list (Env * action)) (s : DevSetupGUI) :
  consistent s -> consistent (session steps s).
Proof.
  apply (preserves_session consistent).
  intros env a _. apply consistent_perform.
Qed.

Lemma refresh_log_consistent (s : DevSetupGUI) :
  consistent s -> refresh_log s = (Ret tt, s).
Proof.
  intros (w & Hw & Htext & _).
  rewrite (refresh_log_run s w Hw), <- Htext.
  destruct s, w; cbn in *; now subst.
Qed.

(** X8. After a construction that returned, and after any sequence of
    actions on the object (buttons, selections, the worker's run, in any
    environments, returning or raising), the widgets exist, the log
    display holds exactly the concatenation of the in-memory log, and
    every entry of the log starts with its bracketed time. *)
Theorem session_keeps_display_and_log_consistent
        (env : Env) (steps : list (Env * action)) :
  fst (__init__ env) = Ret tt ->
  consistent (session steps (snd (__init__ env))).
Proof.
  intros H. apply consistent_session, init_consistent, H.
Qed.

Lemma session_keeps_display_and_log_consistent_witness :
  fst (__init__ Sample.env) = Ret tt /\
  consistent (session ((Sample.env, ClearLog true) :: Demo.steps)
                      (snd (__init__ Sample.env))).
Proof.
  split; [reflexivity|].
  apply (session_keeps_display_and_log_consistent Sample.env).
  reflexivity.
Defined.

(** X9. Hence in every state the object reaches after its construction
    [refresh_log] changes nothing at all: the display already shows the
    log. *)
Theorem refresh_log_is_noop_after_init
        (env : Env) (steps : list (Env * action)) :
  fst (__init__ env) = Ret tt ->
  refresh_log (session steps (snd (__init__ env))) =
  (Ret tt, session steps (snd (__init__ env))).
Proof.
  intros H. apply refresh_log_consistent, consistent_session, init_consistent, H.
Qed.

Lemma refresh_log_is_noop_after_init_witness :
  fst (__init__ Sample.env) = Ret tt /\
  refresh_log (session Demo.steps (snd (__init__ Sample.env))) =
  (Ret tt, session Demo.steps (snd (__init__ Sample.env))).
Proof.
  split; [reflexivity|].
  apply (refresh_log_is_noop_after_init Sample.env Demo.steps). reflexivity.
Defined.

(** X10. The log is append-only apart from a confirmed clear: after any
    sequence of actions none of which is a confirmed [clear_log], in any
    state (constructed or not), the log still starts with all the entries
    it had, unchanged and in order. *)
Theorem session_without_clear_extends_log
        (steps : list (Env * action)) (s : DevSetupGUI) :
  forallb (fun step => negb (clears (snd step))) steps = true ->
  exists more,
    installation_log (session steps s) = (installation_log s ++ more)%list.
Proof.
  intros H.
  apply (preserves_session (log_extends (installation_log s))).
  - intros env a Hin.
    rewrite forallb_forall in H. specialize (H _ Hin). cbn [snd] in H.
    apply preserves_perform.
    + apply log_extends_view.
    + apply log_extends_log_message.
    + apply log_extends_refresh_log.
    + intros Hc. rewrite Hc in H. discriminate.
  - exists []. now rewrite app_nil_r.
Qed.

Lemma session_without_clear_extends_log_witness :
  forallb (fun step => negb (clears (snd step))) Demo.steps = true /\
  exists more,
    installation_log (session Demo.steps Sample.logged) =
    (installation_log Sample.logged ++ more)%list.
Proof.
  split; [reflexivity|].
  apply (session_without_clear_extends_log Demo.steps Sample.logged).
  reflexivity.
Defined.

Lemma session_returns (steps : list (Env * action)) :
  forall s,
    consistent s ->
    Forall (fun step => may_raise (snd step) = false) steps ->
    for_each steps (fun step => perform (fst step) (snd step)) s =
    (Ret tt, session steps s).
Proof.
  unfold session.
  induction steps as [|[env a] r IH]; intros s Hs Hok; cbn [for_each fold_left fst snd].
  - reflexivity.
  - inversion Hok as [|? ? Ha Hr]; subst. cbn [snd] in Ha.
    pose proof (consistent_perform env a s Hs) as Hs'.
    destruct Hs as (w & Hw & _).
    pose proof (perform_returns env a s w Hw Ha) as Hret.
    unfold bind.
    destruct (perform env a s) as [[[]|e] s1]; cbn [fst snd] in *; [|discriminate].
    apply (IH s1 Hs' Hr).
Qed.

(** X11. After a construction that returned, no exception leaves an
    action, except from a save that the file system fails (in [open], or
    while the opened file is written) and from a selection in the list box
    (which reads the stack configuration): in every sequence of the other
    actions each action returns normally, whether the provisioning child
    fails to spawn, or its output ends with a read error, a wait error or
    any exit code.  (A child whose output never ends is outside the model:
    the read loop of such a run does not end, it does not raise.) *)
Theorem session_never_raises
        (env : Env) (steps : list (Env * action)) :
  fst (__init__ env) = Ret tt ->
  Forall (fun step => may_raise (snd step) = false) steps ->
  for_each steps (fun step => perform (fst step) (snd step)) (snd (__init__ env)) =
  (Ret tt, session steps (snd (__init__ env))).
Proof.
  intros H Hok. apply session_returns; [apply init_consistent, H|exact Hok].
Qed.

Lemma session_never_raises_witness :
  fst (__init__ Sample.env) = Ret tt /\
  Forall (fun step => may_raise (snd step) = false) Demo.steps /\
  for_each Demo.steps (fun step => perform (fst step) (snd step))
           (snd (__init__ Sample.env)) =
  (Ret tt, session Demo.steps (snd (__init__ Sample.env))).
Proof.
  assert (Hok : Forall (fun step => may_raise (snd step) = false) Demo.steps)
    by (repeat constructor).
  split; [reflexivity|]. split; [exact Hok|].
  apply (session_never_raises Sample.env Demo.steps); [reflexivity|exact Hok].
Defined.

(** ** The registry of package managers *)

Lemma detected_get (env : Env) (name : string) :
  dict_get name (detected env) =
  if is_known name && probe_succeeds env name
  then Some (probe_version env name) else None.
Proof.
  unfold detected, is_known, known_managers. cbn [existsb]. cbv zeta.
  destruct (String.eqb_spec name "choco") as [->|Hc];
    [|destruct (String.eqb_spec name "winget") as [->|Hw];
      [|destruct (String.eqb_spec name "scoop") as [->|Hs]]].
  - destruct (probe_succeeds env "choco"), (probe_succeeds env "scoop"),
      (probe_succeeds env "winget"); reflexivity.
  - destruct (probe_succeeds env "choco"), (probe_succeeds env "scoop"),
      (probe_succeeds env "winget"); reflexivity.
  - destruct (probe_succeeds env "choco"), (probe_succeeds env "scoop"),
      (probe_succeeds env "winget"); reflexivity.
  - cbn [orb andb].
    destruct (probe_succeeds env "choco"), (probe_succeeds env "scoop"),
      (probe_succeeds env "winget");
      rewrite ?dict_get_set_other by assumption; reflexivity.
Qed.

Lemma probe_version_stripped (env : Env) (name : string) (result : CompletedProcess) :
  subprocess_run env [name; "--version"] = Ret result ->
  stripped_of (stdout result) (probe_version env name).
Proof.
  intros H. unfold probe_version. rewrite H. apply strip_stripped_of.
Qed.

(** X12. After [auto_detect_package_managers], in any state and whatever
    the registry held before, looking a name up in the registry gives a
    version when the name is one of the three known managers and its probe
    ran and exited with 0, and nothing otherwise: earlier detections do not
    survive a new probe, and no other key appears.  The version is what the
    probe printed without its leading and trailing white space (the white
    space of [str.strip], Unicode included): the output is the version
    between two runs of white-space characters, and the version neither
    starts nor ends with one. *)
Theorem auto_detect_records_stripped_versions
        (env : Env) (s : DevSetupGUI) (name : string) :
  dict_get name (package_managers (snd (auto_detect_package_managers env s))) =
    (if is_known name && probe_succeeds env name
     then Some (probe_version env name) else None) /\
  forall result,
    subprocess_run env [name; "--version"] = Ret result ->
    stripped_of (stdout result) (probe_version env name).
Proof.
  split.
  - rewrite auto_detect_package_managers_registry. apply detected_get.
  - apply probe_version_stripped.
Qed.

Lemma auto_detect_records_stripped_versions_witness :
  subprocess_run Demo.env_unicode ["choco"; "--version"] =
    Ret (mk_completed 0 (Demo.nbsp ++ "2.2.2" ++ Demo.nbsp ++ nl)) /\
  probe_version Demo.env_unicode "choco" = "2.2.2" /\
  dict_get "choco"
    (package_managers (snd (auto_detect_package_managers Demo.env_unicode Sample.busy)))
    = Some "2.2.2" /\
  dict_get "winget"
    (package_managers (snd (auto_detect_package_managers Demo.env_unicode Sample.busy)))
    = None /\
  stripped_of (Demo.nbsp ++ "2.2.2" ++ Demo.nbsp ++ nl) "2.2.2".
Proof.
  destruct (auto_detect_records_stripped_versions Demo.env_unicode Sample.busy "choco")
    as [Hget Hstrip].
  destruct (auto_detect_records_stripped_versions Demo.env_unicode Sample.busy "winget")
    as [Hnone _].
  split; [reflexivity|]. split; [reflexivity|].
  split; [exact Hget|]. split; [exact Hnone|].
  apply (Hstrip (mk_completed 0 (Demo.nbsp ++ "2.2.2" ++ Demo.nbsp ++ nl))).
  reflexivity.
Defined.

(** X13. After [auto_detect_package_managers] on the constructed GUI the
    status bar reads "No package managers detected" exactly when none of
    the three probes succeeded; otherwise it lists the detected managers as
    name: version, joined by " | ", in the order choco, scoop, winget; no
    other widget changes.  Each version is what the probe printed without
    its leading and trailing white space (that of [str.strip], Unicode
    included). *)
Theorem auto_detect_shows_detected_managers
        (env : Env) (s : DevSetupGUI) (w : Widgets) :
  widgets s = Some w ->
  widgets (snd (auto_detect_package_managers env s)) =
    Some (set_pm_status
            (if probe_succeeds env "choco" || probe_succeeds env "scoop"
                || probe_succeeds env "winget"
             then join " | "
                    (map (fun name => name ++ ": " ++ probe_version env name)
                         (filter (probe_succeeds env) ["choco"; "scoop"; "winget"]))
             else "No package managers detected") w) /\
  forall name result,
    subprocess_run env [name; "--version"] = Ret result ->
    stripped_of (stdout result) (probe_version env name).
Proof.
  intros H. split.
  - rewrite (auto_detect_package_managers_run env s w H).
    cbn [snd set_widgets widgets]. unfold pm_status_text, detected. cbn [filter].
    destruct (probe_succeeds env "choco"), (probe_succeeds env "scoop"),
      (probe_succeeds env "winget"); reflexivity.
  - intros name. apply probe_version_stripped.
Qed.

Lemma auto_detect_shows_detected_managers_witness :
  widgets Sample.busy = Some Sample.busy_widgets /\
  widgets (snd (auto_detect_package_managers Demo.env_bare Sample.busy)) =
    Some (set_pm_status "No package managers detected" Sample.busy_widgets) /\
  widgets (snd (auto_detect_package_managers Demo.env_unicode Sample.busy)) =
    Some (set_pm_status "choco: 2.2.2" Sample.busy_widgets).
Proof.
  split; [reflexivity|]. split.
  - apply (auto_detect_shows_detected_managers Demo.env_bare Sample.busy
                                               Sample.busy_widgets).
    reflexivity.
  - apply (auto_detect_shows_detected_managers Demo.env_unicode Sample.busy
                                               Sample.busy_widgets).
    reflexivity.
Defined.

(** ** The whole effect of a run *)

Lemma text_of_cons (e : string) (l : list string) : text_of (e :: l) = e ++ text_of l.
Proof. reflexivity. Qed.

Lemma text_of_last (l : list string) (e : string) : text_of (l ++ [e]) = text_of l ++ e.
Proof.
  rewrite text_of_app. f_equal. apply append_empty_r.
Qed.

Lemma run_installation_finished (env : Env) (s : DevSetupGUI) (w : Widgets) :
  widgets s = Some w ->
  run_installation env s = (Ret tt, finished env s w).
Proof.
  intros H.
  unfold finished, run_messages, launch_cmd, run_installation, try_finally, try_except.
  run_step. run_step. run_step.
  destruct (pm_var w =? "auto") eqn:Epm;
    (destruct (subprocess_Popen env _) as [e | lines [e|e|code]] eqn:HP;
     [ | | | destruct (code =? 0)%Z eqn:Ecode ]);
    run_all; unfold for_stdout, wait; fields; run_all;
    try rewrite Ecode; run_all;
    unfold closing_message, closing_status;
    cbn [lines_read raised map];
    try rewrite Ecode;
    cbv zeta;
    cbn [log_entries]; rewrite ?log_entries_app;
    cbn [log_entries app length];
    rewrite ?length_app, ?log_entries_length; cbn [length];
    rewrite ?text_of_cons, ?text_of_app, ?text_of_cons;
    unfold text_of at 1; cbn [fold_right];
    rewrite <- ?app_assoc, ?Nat.add_0_r, ?append_assoc, ?append_empty_r;
    cbn [app];
    repeat f_equal; lia.
Qed.

(** X14. When the provisioning child is spawned, its output is read to
    the end and it exits with code 0, [run_installation] (on the
    constructed GUI) returns normally; the last entry of the log is the
    timestamped "Installation completed successfully!", the status text is
    "Installation completed", the run-state flag is false, the install
    button is enabled again and the progress bar is stopped and hidden. *)
Theorem run_installation_reports_success
        (env : Env) (s : DevSetupGUI) (w : Widgets) (lines : list string) :
  widgets s = Some w ->
  subprocess_Popen env (launch_cmd s w) = Spawned lines (Exits 0) ->
  exists s' w' n,
    run_installation env s = (Ret tt, s') /\
    is_installing s' = false /\
    last (installation_log s') "" =
      log_entry env n "Installation completed successfully!" /\
    widgets s' = Some w' /\
    status_text w' = "Installation completed" /\
    install_btn w' = "normal" /\
    progress_running w' = false /\
    progress_packed w' = false.
Proof.
  intros H HP.
  rewrite (run_installation_finished env s w H).
  unfold finished, run_messages, closing_status, closing_message. rewrite HP.
  cbn [raised lines_read Z.eqb]. cbv zeta.
  do 3 eexists. split; [reflexivity|].
  cbn [is_installing installation_log widgets status_text install_btn
       progress_running progress_packed].
  split; [reflexivity|]. split; [|repeat split].
  rewrite app_comm_cons, log_entries_app. cbn [log_entries].
  rewrite app_assoc. apply last_last.
Qed.

Lemma run_installation_reports_success_witness :
  widgets Sample.busy = Some Sample.busy_widgets /\
  subprocess_Popen Demo.env_success (launch_cmd Sample.busy Sample.busy_widgets) =
    Spawned ["  Installing git  " ++ nl; "done" ++ nl] (Exits 0) /\
  exists s' w' n,
    run_installation Demo.env_success Sample.busy = (Ret tt, s') /\
    is_installing s' = false /\
    last (installation_log s') "" =
      log_entry Demo.env_success n "Installation completed successfully!" /\
    widgets s' = Some w' /\
    status_text w' = "Installation completed" /\
    install_btn w' = "normal" /\
    progress_running w' = false /\
    progress_packed w' = false.
Proof.
  split; [reflexivity|]. split; [reflexivity|].
  apply (run_installation_reports_success
           Demo.env_success Sample.busy Sample.busy_widgets
           ["  Installing git  " ++ nl; "done" ++ nl]); reflexivity.
Defined.

(** X15. A run on the constructed GUI, whether the child fails to spawn
    or its output ends with a read error, a wait error or an exit code,
    returns normally and adds to the log its start entry, then one entry
    for each line of output it read, in order, then one closing entry: two
    entries more than lines read.  The entry of a line carries the line
    without its leading and trailing white space (that of [str.strip],
    Unicode included): the line is the message between two runs of
    white-space characters, and the message neither starts nor ends with
    one.  (A child whose output never ends is outside the model.) *)
Theorem run_installation_logs_each_line
        (env : Env) (s : DevSetupGUI) (w : Widgets) :
  widgets s = Some w ->
  exists s',
    run_installation env s = (Ret tt, s') /\
    length (installation_log s') =
      length (installation_log s)
      + length (lines_read (subprocess_Popen env (launch_cmd s w))) + 2 /\
    nth_error (installation_log s') (length (installation_log s)) =
      Some (log_entry env (now_calls s) "Starting installation...") /\
    forall i line,
      nth_error (lines_read (subprocess_Popen env (launch_cmd s w))) i = Some line ->
      exists message,
        stripped_of line message /\
        nth_error (installation_log s') (length (installation_log s) + 1 + i) =
          Some (log_entry env (now_calls s + 1 + i) message).
Proof.
  intros H.
  rewrite (run_installation_finished env s w H).
  eexists. split; [reflexivity|].
  unfold finished, run_messages. cbv zeta. cbn [installation_log log_entries].
  set (c := subprocess_Popen env (launch_cmd s w)).
  split; [|split].
  - rewrite length_app. cbn [length].
    rewrite log_entries_length, length_app, length_map. cbn [length]. lia.
  - rewrite nth_error_app2 by lia. now rewrite Nat.sub_diag.
  - intros i line Hi. exists (strip line).
    split; [apply strip_stripped_of|].
    rewrite nth_error_app2 by lia.
    replace (length (installation_log s) + 1 + i - length (installation_log s))
      with (S i) by lia.
    cbn [nth_error].
    rewrite (log_entries_nth env _ (S (now_calls s)) i (strip line)).
    + do 2 f_equal. lia.
    + rewrite nth_error_app1
        by (rewrite length_map; apply nth_error_Some; now rewrite Hi).
      now apply map_nth_error.
Qed.

Lemma run_installation_logs_each_line_witness :
  widgets Sample.busy = Some Sample.busy_widgets /\
  nth_error (lines_read (subprocess_Popen Demo.env_unicode
                           (launch_cmd Sample.busy Sample.busy_widgets))) 0
    = Some (Demo.ideographic_space ++ "Installing git" ++ Demo.nbsp ++ nl) /\
  installation_log (snd (run_installation Demo.env_unicode Sample.busy)) =
    ["[01:02:05] Starting installation..." ++ nl;
     "[01:02:06] Installing git" ++ nl;
     "[01:02:07] Installation completed successfully!" ++ nl] /\
  exists s',
    run_installation Demo.env_unicode Sample.busy = (Ret tt, s') /\
    length (installation_log s') = length (installation_log Sample.busy) + 1 + 2 /\
    exists message,
      stripped_of (Demo.ideographic_space ++ "Installing git" ++ Demo.nbsp ++ nl) message /\
      nth_error (installation_log s') (length (installation_log Sample.busy) + 1 + 0) =
        Some (log_entry Demo.env_unicode (now_calls Sample.busy + 1 + 0) message).
Proof.
  split; [reflexivity|]. split; [reflexivity|]. split; [reflexivity|].
  destruct (run_installation_logs_each_line
              Demo.env_unicode Sample.busy Sample.busy_widgets eq_refl)
    as (s' & Hrun & Hlen & _ & Hline).
  exists s'. split; [exact Hrun|]. split; [exact Hlen|].
  apply (Hline 0 (Demo.ideographic_space ++ "Installing git" ++ Demo.nbsp ++ nl)).
  reflexivity.
Defined.

Lemma install_cmd_flags (pm : string) (debug verbose : bool) :
  install_cmd pm debug verbose = (script_invocation ++ pm :: flags debug verbose)%list.
Proof. destruct debug, verbose; reflexivity. Qed.

(** X16. A run (on the constructed GUI) calls [Popen] exactly once, with
    the fixed PowerShell invocation of setup.ps1, then after
    -PackageManager the chosen manager: the radio button's value as it is
    when it is not auto (the registry is not consulted, so a manager that
    was not detected is passed all the same), else the auto-selected one;
    then -Debug if debug mode is on, then -Verbose if detailed logging is
    on, and nothing else. *)
Theorem run_installation_command_line
        (env : Env) (s : DevSetupGUI) (w : Widgets) :
  widgets s = Some w ->
  popen_calls (snd (run_installation env s)) =
  (popen_calls s ++
   [script_invocation ++ chosen_manager s w :: flags (debug_var w) (logging_var w)])%list.
Proof.
  intros H.
  rewrite (run_installation_finished env s w H).
  unfold finished, launch_cmd, chosen_manager. cbn [snd popen_calls].
  now rewrite install_cmd_flags.
Qed.

Lemma run_installation_command_line_witness :
  widgets Demo.scoop_chosen = Some Demo.scoop_widgets /\
  dict_mem "scoop" (package_managers Demo.scoop_chosen) = false /\
  popen_calls (snd (run_installation Sample.env Demo.scoop_chosen)) =
  [["powershell"; "-ExecutionPolicy"; "Bypass"; "-File"; "setup.ps1";
    "-PackageManager"; "scoop"; "-Debug"; "-Verbose"]].
Proof.
  split; [reflexivity|]. split; [reflexivity|].
  apply (run_installation_command_line Sample.env Demo.scoop_chosen Demo.scoop_widgets).
  reflexivity.
Defined.

(** X17. From the idle constructed GUI, a click on the install button
    followed by the worker's run leaves the run-state flag false, the
    button enabled and the progress bar stopped and hidden, one more worker
    thread and one more launched command; the status label still reads
    Working, since nothing sets it after the flag is cleared; and a further
    click starts another worker. *)
Theorem install_click_and_run_lifecycle
        (env env' env'' : Env) (s : DevSetupGUI) (w : Widgets) :
  widgets s = Some w ->
  is_installing s = false ->
  exists s' w',
    session [(env, StartInstallation); (env', RunInstallation)] s = s' /\
    is_installing s' = false /\
    threads_started s' = S (threads_started s) /\
    length (popen_calls s') = S (length (popen_calls s)) /\
    widgets s' = Some w' /\
    install_btn w' = "normal" /\
    progress_running w' = false /\
    progress_packed w' = false /\
    status_label w' = "🟡 Working" /\
    threads_started (session [(env'', StartInstallation)] s') = S (S (threads_started s)) /\
    is_installing (session [(env'', StartInstallation)] s') = true.
Proof.
  intros H Hidle.
  unfold session. cbn [fold_left fst snd perform].
  rewrite (start_installation_run s w H Hidle). cbn [snd].
  match goal with
  | |- context [run_installation env' ?s1] =>
      rewrite (run_installation_finished env' s1 _ eq_refl)
  end.
  cbn [snd]. do 2 eexists. split; [reflexivity|].
  unfold finished. cbv zeta.
  cbn [is_installing threads_started popen_calls widgets install_btn
       progress_running progress_packed status_label].
  split; [reflexivity|]. split; [reflexivity|].
  split; [rewrite length_app; cbn [length]; lia|].
  split; [reflexivity|]. split; [reflexivity|]. split; [reflexivity|].
  split; [reflexivity|]. split; [reflexivity|].
  match goal with
  | |- context [start_installation ?s1] =>
      rewrite (start_installation_run s1 _ eq_refl eq_refl)
  end.
  split; reflexivity.
Qed.

Lemma install_click_and_run_lifecycle_witness :
  widgets Sample.ready = Some Sample.ready_widgets /\
  is_installing Sample.ready = false /\
  exists s' w',
    session [(Sample.env, StartInstallation); (Sample.env_no_powershell, RunInstallation)]
            Sample.ready = s' /\
    is_installing s' = false /\
    threads_started s' = S (threads_started Sample.ready) /\
    length (popen_calls s') = S (length (popen_calls Sample.ready)) /\
    widgets s' = Some w' /\
    install_btn w' = "normal" /\
    progress_running w' = false /\
    progress_packed w' = false /\
    status_label w' = "🟡 Working" /\
    threads_started (session [(Sample.env, StartInstallation)] s')
      = S (S (threads_started Sample.ready)) /\
    is_installing (session [(Sample.env, StartInstallation)] s') = true.
Proof.
  split; [reflexivity|]. split; [reflexivity|].
  apply (install_click_and_run_lifecycle
           Sample.env Sample.env_no_powershell Sample.env
           Sample.ready Sample.ready_widgets); reflexivity.
Defined.

Lemma start_installation_again (steps : list (Env * action)) :
  Forall (fun step => snd step = StartInstallation) steps ->
  forall s, is_installing s = true -> session steps s = s.
Proof.
  unfold session.
  induction 1 as [|[env a] r Ha Hr IH]; intros s Hs; cbn [fold_left fst snd] in *.
  - reflexivity.
  - subst a. cbn [perform].
    assert (E : start_installation s = (Ret tt, s))
      by (unfold start_installation, bind, gets; now rewrite Hs).
    rewrite E. cbn [snd]. now apply IH.
Qed.

(** X18. However many times the install button is clicked in a row on the
    idle constructed GUI, exactly one worker thread is started: the first
    click sets the run-state flag, disables the button and shows the
    running progress bar, and the later clicks change nothing. *)
Theorem repeated_clicks_start_one_worker
        (step : Env * action) (steps : list (Env * action))
        (s : DevSetupGUI) (w : Widgets) :
  widgets s = Some w ->
  is_installing s = false ->
  Forall (fun step => snd step = StartInstallation) (step :: steps) ->
  session (step :: steps) s =
  mk_gui true (installation_log s) (config s) (package_managers s)
         (available_stacks s)
         (Some (set_progress_running true
                  (set_progress_packed true (set_install_btn "disabled" w))))
         (now_calls s) (S (threads_started s)) (popen_calls s).
Proof.
  intros H Hidle Hall.
  inversion Hall as [|? ? Hstep Hsteps]; subst.
  destruct step as [env a]. cbn [snd] in Hstep. subst a.
  change (session ((env, StartInstallation) :: steps) s)
    with (session steps (snd (start_installation s))).
  rewrite (start_installation_run s w H Hidle). cbn [snd].
  now apply start_installation_again.
Qed.

Lemma repeated_clicks_start_one_worker_witness :
  widgets Sample.ready = Some Sample.ready_widgets /\
  is_installing Sample.ready = false /\
  session [(Sample.env, StartInstallation); (Sample.env, StartInstallation);
           (Sample.env, StartInstallation)] Sample.ready = Sample.busy /\
  threads_started Sample.busy = 1.
Proof.
  split; [reflexivity|]. split; [reflexivity|]. split; [|reflexivity].
  apply (repeated_clicks_start_one_worker
           (Sample.env, StartInstallation)
           [(Sample.env, StartInstallation); (Sample.env, StartInstallation)]
           Sample.ready Sample.ready_widgets).
  - reflexivity.
  - reflexivity.
  - repeat constructor.
Defined.

(** ** Saving the log, and the buttons that only log *)



(** X21. The stack buttons, the custom-setup button, the dry run and the
    reset install and reset nothing: in any state, whether they return or
    raise, they start no thread, launch no process and leave the run-state
    flag, the configuration, the stacks and the registry as they were; all
    they do is append at most one entry to the log. *)
Theorem logging_buttons_change_nothing_else
        (env : Env) (a : action) (s : DevSetupGUI) :
  only_logs a = true ->
  let s' := snd (perform env a s) in
  threads_started s' = threads_started s /\
  popen_calls s' = popen_calls s /\
  is_installing s' = is_installing s /\
  config s' = config s /\
  available_stacks s' = available_stacks s /\
  package_managers s' = package_managers s /\
  exists more,
    installation_log s' = (installation_log s ++ more)%list /\ length more <= 1.
Proof.
  intros Ha.
  assert (Hlog : forall m,
             let s' := snd (log_message env m s) in
             threads_started s' = threads_started s /\
             popen_calls s' = popen_calls s /\
             is_installing s' = is_installing s /\
             config s' = config s /\
             available_stacks s' = available_stacks s /\
             package_managers s' = package_managers s /\
             exists more,
               installation_log s' = (installation_log s ++ more)%list /\
               length more <= 1).
  { intros m. cbv zeta. destruct (widgets s) as [w|] eqn:H.
    - rewrite (log_message_run env m s w H). cbn.
      repeat split. eexists. split; [reflexivity|]. cbn. lia.
    - rewrite (log_message_without_widgets env m s H). cbn.
      repeat split. eexists. split; [reflexivity|]. cbn. lia. }
  assert (Hsame : threads_started s = threads_started s /\
                  popen_calls s = popen_calls s /\
                  is_installing s = is_installing s /\
                  config s = config s /\
                  available_stacks s = available_stacks s /\
                  package_managers s = package_managers s /\
                  exists more,
                    installation_log s = (installation_log s ++ more)%list /\
                    length more <= 1).
  { repeat split. exists []. rewrite app_nil_r. split; [reflexivity|]. cbn. lia. }
  destruct a as [name| | | | |c|sel| |f o fs|c]; try discriminate; cbn [perform].
  - apply Hlog.
  - exact Hsame.
  - apply Hlog.
  - destruct c; [apply Hlog|exact Hsame].
Qed.

Lemma logging_buttons_change_nothing_else_witness :
  only_logs (SetupStack "web-dev") = true /\
  installation_log (snd (perform Sample.env (SetupStack "web-dev") Sample.ready)) =
    [log_entry Sample.env 0 "Setting up web-dev stack..."] /\
  threads_started (snd (perform Sample.env (SetupStack "web-dev") Sample.ready)) =
    threads_started Sample.ready /\
  popen_calls (snd (perform Sample.env (SetupStack "web-dev") Sample.ready)) =
    popen_calls Sample.ready.
Proof.
  destruct (logging_buttons_change_nothing_else
              Sample.env (SetupStack "web-dev") Sample.ready eq_refl)
    as (Ht & Hp & _).
  split; [reflexivity|]. split; [reflexivity|]. split; [exact Ht|exact Hp].
Defined.
